(** * kfactory.widgets.interactive: the notebook layout widget

    A shallow embedding of [src/kfactory/widgets/interactive.py].  The
    module is glue between a notebook image widget and KLayout's
    [lay.LayoutView]: every handler turns a browser event into calls on
    the view and republishes a screenshot.

    The view itself is not part of the module.  It is taken as a
    parameter: a labelled transition system whose labels are the API
    calls the widget makes ([Engine]).  The widget's own data (layer
    table entries it reads and writes, the toggle buttons, the image
    buffer, the log of calls it issued) is modelled concretely. *)

From Stdlib Require Import ZArith QArith_base String Ascii List Bool Lia.
From Stdlib Require Import DecimalString.
From stdpp Require Import base option list strings.

Local Open Scope string_scope.
Local Open Scope Z_scope.
Local Open Scope list_scope.

(** ** Button state flags

    [lay.ButtonState] is a namespace of integer constants of the engine.
    Their values are not fixed here. *)

Class ButtonState := {
  ShiftKey : Z;
  AltKey : Z;
  ControlKey : Z;
  LeftButton : Z;
  RightButton : Z;
  MidButton : Z
}.

(** The values KLayout ships. *)
Definition klayout_ButtonState : ButtonState :=
  {| ShiftKey := 1; ControlKey := 2; AltKey := 4;
     LeftButton := 8; MidButton := 16; RightButton := 32 |}.

(** ** DOM events

    The dictionary ipyevents delivers for a mouse or wheel event, with
    the keys the handlers read.  Numbers that JavaScript sends as
    doubles are rationals; [buttons] is the browser's button bitmask. *)

Record Event := mkEvent {
  event : string;
  shiftKey : bool;
  altKey : bool;
  ctrlKey : bool;
  buttons : Z;
  deltaY : Q;
  relativeX : Q;
  relativeY : Q;
  movementX : Q;
  movementY : Q
}.

(** Python's [if n:] on an integer. *)
Definition truthy (n : Z) : bool := negb (n =? 0).

(** Python's [int(x)] on a finite number: truncation toward zero. *)
Definition int (q : Q) : Z := Z.quot (Qnum q) (Zpos (Qden q)).

(** Python's [float(x)] on a pixel coordinate (exactly representable). *)
Definition float (q : Q) : Q := q.

Section Modifiers.
Context {BS : ButtonState}.

Definition _get_modifier_buttons (ev : Event) : Z :=
  let shift := shiftKey ev in
  let alt := altKey ev in
  let ctrl := ctrlKey ev in
  let mouse_buttons := buttons ev in
  let buttons := 0 in
  let buttons := if shift then Z.lor buttons ShiftKey else buttons in
  let buttons := if alt then Z.lor buttons AltKey else buttons in
  let buttons := if ctrl then Z.lor buttons ControlKey else buttons in
  let buttons :=
    if truthy (Z.land mouse_buttons 1) then Z.lor buttons LeftButton
    else buttons in
  let buttons :=
    if truthy (Z.land mouse_buttons 2) then Z.lor buttons RightButton
    else buttons in
  let buttons :=
    if truthy (Z.land mouse_buttons 4) then Z.lor buttons MidButton
    else buttons in
  buttons.

End Modifiers.

(** ** Python string formatting used by the widget *)

Definition hex_digit (d : N) : ascii :=
  match d with
  | 0 => "0" | 1 => "1" | 2 => "2" | 3 => "3" | 4 => "4" | 5 => "5"
  | 6 => "6" | 7 => "7" | 8 => "8" | 9 => "9" | 10 => "a" | 11 => "b"
  | 12 => "c" | 13 => "d" | 14 => "e" | _ => "f"
  end%N%char.

Fixpoint hex_of (fuel : nat) (n : N) (acc : string) : string :=
  match fuel with
  | O => acc
  | S fuel' =>
      let acc' := String (hex_digit (n mod 16)) acc in
      if (n / 16 =? 0)%N then acc' else hex_of fuel' (n / 16)%N acc'
  end.

Fixpoint zfill (pad : nat) (s : string) : string :=
  match pad with
  | O => s
  | S pad' => zfill pad' (String "0"%char s)
  end.

(** [f"{n:06x}"] for an unsigned [n]. *)
Definition format_06x (n : N) : string :=
  let digits := hex_of (S (N.size_nat n)) n "" in
  zfill (6 - String.length digits) digits.

(** [f"{z}"] for an integer. *)
Definition format_int (z : Z) : string :=
  NilZero.string_of_int (Z.to_int z).

(** ** Engine data the widget reads and writes *)

(** The attributes of a layer properties node that the widget touches.
    [==] on two of them is KLayout's value comparison; the widget relies
    on it, since every [each_layer()] call yields fresh reference
    objects. *)
Record LayerProperties := mkProps {
  visible : bool;
  name : string;
  source_layer : Z;
  source_datatype : Z;
  eff_fill_color : N;
  layer_index : Z;
  has_children : bool
}.

#[global] Instance LayerProperties_eq_dec : EqDecision LayerProperties.
Proof. solve_decision. Defined.

Definition with_visible (b : bool) (p : LayerProperties) : LayerProperties :=
  mkProps b (name p) (source_layer p) (source_datatype p)
          (eff_fill_color p) (layer_index p) (has_children p).

Definition with_name (s : string) (p : LayerProperties) : LayerProperties :=
  mkProps (visible p) s (source_layer p) (source_datatype p)
          (eff_fill_color p) (layer_index p) (has_children p).

Record Box := mkBox { left : Z; bottom : Z; right : Z; top : Z }.

(** [Box.empty()]: no point lies inside. *)
Definition empty (b : Box) : bool := (right b <? left b) || (top b <? bottom b).

(** A cell: its name, its bounding box on each layer index and its child
    cells. *)
#[warnings="-register-all"]
Inductive Cell := mkCell (cell_name : string) (bboxes : Z -> Box)
                         (child_cells : list Cell).

Definition cell_name (c : Cell) : string :=
  let '(mkCell n _ _) := c in n.
Definition bbox_per_layer (c : Cell) (layer : Z) : Box :=
  let '(mkCell _ b _) := c in b layer.
Definition each_child_cell (c : Cell) : list Cell :=
  let '(mkCell _ _ cs) := c in cs.

Record Layout := mkLayout { top_cells : list Cell }.

Record DPoint := mkDPoint { point_x : Q; point_y : Q }.

Inductive exn :=
| LookupError (key : string)
| AttributeError (attr : string)
| OSError (errno : Z).

Inductive outcome (A : Type) :=
| Done (a : A)
| Raised (e : exn)
| OutOfFuel.
Arguments Done {A} a.
Arguments Raised {A} e.
Arguments OutOfFuel {A}.

Definition bind {A B} (m : outcome A) (k : A -> outcome B) : outcome B :=
  match m with
  | Done a => k a
  | Raised e => Raised e
  | OutOfFuel => OutOfFuel
  end.

Notation "'do' x <- m ; k" := (bind m (fun x => k))
  (at level 10, x pattern, m at level 100, k at level 200).

Definition outcome_map {A B} (f : A -> B) (m : outcome A) : outcome B :=
  match m with
  | Done a => Done (f a)
  | Raised e => Raised e
  | OutOfFuel => OutOfFuel
  end.

(** All cells of a layout, parents before children. *)
Fixpoint cells_of (c : Cell) : list Cell :=
  match c with
  | mkCell _ _ cs =>
  c :: (fix go (l : list Cell) : list Cell :=
          match l with
          | [] => []
          | c' :: l' => cells_of c' ++ go l'
          end) cs
  end.

Definition each_cell (l : Layout) : list Cell :=
  concat (List.map cells_of (top_cells l)).

(** [Layout.cell(name)] of the engine: the first cell of that name, or
    [None] when the layout has no such cell. *)
Definition cell (l : Layout) (cname : string) : option Cell :=
  List.find (fun c => String.eqb (cell_name c) cname) (each_cell l).

(** ** The view as a labelled transition system *)

(** The methods of [lay.LayoutView] (and of the objects it hands out)
    that the widget calls. *)
Module Call.
Inductive t :=
| show_layout (l : Layout) (add_cellview : bool)
| load_layout (path : string)
| load_layer_props (path : string)
| set_cell (c : option Cell)          (* active_cellview().cell = c *)
| max_hier
| resize (w h : Z)
| add_missing_layers
| zoom_fit
| timer
| get_screenshot_pixels
| set_visible (i : nat) (b : bool)    (* each_layer()[i].visible = b *)
| set_name (i : nat) (s : string)     (* each_layer()[i].name = s *)
| switch_mode (mode : string)
| send_wheel_event (delta : Z) (horizontal : bool) (p : DPoint) (buttons : Z)
| send_mouse_press_event (p : DPoint) (buttons : Z)
| send_mouse_release_event (p : DPoint) (buttons : Z)
| send_mouse_move_event (p : DPoint) (buttons : Z)
| send_enter_event
| send_leave_event
| set_on_image_updated_event.        (* on_image_updated_event = refresh *)
End Call.

(** What the widget can see of a viewer session: the layer table in
    [each_layer()] order, the layout and active cell of the active
    cellview, and the engine's own state. *)
Record Session (Core : Type) := mkSession {
  layers : list LayerProperties;
  layout : Layout;
  active_cell : option Cell;
  core : Core
}.
Arguments mkSession {Core}.
Arguments layers {Core}.
Arguments layout {Core}.
Arguments active_cell {Core}.
Arguments core {Core}.

Definition set_layers {Core} (l : list LayerProperties) (s : Session Core) :=
  mkSession l (layout s) (active_cell s) (core s).
Definition set_active_cell {Core} (c : option Cell) (s : Session Core) :=
  mkSession (layers s) (layout s) c (core s).

(** The engine: how a session reacts to each call, what it renders, and
    its layer properties iterator.  [next] and [down_first_child] move
    the iterator in place, so they are given as the new position. *)
Class Engine := {
  Core : Type;
  PixelBuffer : Type;
  LayerPropertiesIterator : Type;
  new_LayoutView : Session Core;
  step : Call.t -> Session Core -> Session Core;
  screenshot : Session Core -> PixelBuffer;
  to_png_data : PixelBuffer -> list Byte.byte;
  viewport_height : Session Core -> Z;
  mode_names : Session Core -> list string;
  begin_layers : Session Core -> LayerPropertiesIterator;
  at_end : LayerPropertiesIterator -> bool;
  next : LayerPropertiesIterator -> LayerPropertiesIterator;
  current : LayerPropertiesIterator -> LayerProperties;
  down_first_child : LayerPropertiesIterator -> LayerPropertiesIterator;
  num_siblings : LayerPropertiesIterator -> nat
}.

(** ** Widget objects *)

Record Button := mkButton {
  button_color : string;      (* style.button_color *)
  default_color : string;
  layer_props : LayerProperties;
  button_name : string        (* name *)
}.

(** [HBox([layer_checkbox, layer_label])]; the label is a [Label] for a
    leaf and an [Accordion] around a [VBox] of children for a group.  The
    checkbox's own [label] attribute is the same object as the label. *)
#[warnings="-register-all"]
Inductive HBox := mkHBox (layer_checkbox : Button) (layer_label : LayerLabel)
with LayerLabel :=
| Label (value : string)
| Accordion (children : list HBox) (title : string).

#[warnings="-register-all"]
Inductive Node := mkNode (node_name : string) (nodes : list Node).
Definition node_name (n : Node) : string := let '(mkNode s _) := n in s.

Record Tab := mkTab {
  selector : list HBox;       (* children[0]: the "Layers" VBox *)
  tree : list Node            (* children[1]: the "Cells" Tree *)
}.

Record ToggleButtons := mkToggleButtons { options : list string }.

(** [center] is the widget's image itself and is not stored twice. *)
Record AppLayout := mkAppLayout {
  left_sidebar : ToggleButtons;
  right_sidebar : option Tab
}.

Record Image := mkImage { value : list Byte.byte; format : string }.

(** A traitlets change notification. *)
Record Change (O V : Type) := mkChange { owner : O; new : V }.
Arguments mkChange {O V}.
Arguments owner {O V}.
Arguments new {O V}.

Inductive FileKind := RegularFile | Directory | OtherFile.

#[global] Instance FileKind_eq_dec : EqDecision FileKind.
Proof. solve_decision. Defined.

(** What [os.stat] makes of a path: the kind of file found, one of the
    not-found errors that [Path.exists()] and [Path.is_file()] take for
    an answer (ENOENT, ENOTDIR, EBADF, ELOOP), or another error, which
    they let through as an [OSError]. *)
Inductive stat_result :=
| st_mode (k : FileKind)
| not_found
| os_error (errno : Z).

Definition FileSystem : Type := string -> stat_result.

(** pathlib's pure POSIX path: what [Path(s)] keeps of [s] and how
    [str] writes it back.  Leading slashes make the root ("//" for
    exactly two, "/" otherwise); empty and "." components are dropped;
    a path with nothing left is ".". *)
Record PosixPath := mkPath { root : string; parts : list string }.

Fixpoint split_slash (s : string) : list string :=
  match s with
  | EmptyString => [EmptyString]
  | String c s' =>
      if Ascii.eqb c "/" then EmptyString :: split_slash s'
      else match split_slash s' with
           | h :: t => String c h :: t
           | [] => [String c EmptyString]
           end
  end.

Fixpoint leading_slashes (s : string) : nat :=
  match s with
  | String c s' => if Ascii.eqb c "/" then S (leading_slashes s') else O
  | EmptyString => O
  end.

Definition Path (s : string) : PosixPath :=
  let r := match leading_slashes s with
           | O => ""
           | 2%nat => "//"
           | _ => "/"
           end in
  mkPath r (List.filter
              (fun x => negb (String.eqb x "") && negb (String.eqb x "."))
              (split_slash s)).

Definition str (p : PosixPath) : string :=
  let text := String.append (root p) (String.concat "/" (parts p)) in
  if String.eqb text "" then "." else text.

Record KCell := mkKCell { kdb_cell : Cell; klib : Layout }.

(** [self.layout_view]: the session together with the calls issued on it
    so far, oldest first. *)
Record LayoutView {E : Engine} := mkLayoutView {
  session : Session Core;
  calls : list Call.t
}.
Arguments mkLayoutView {E}.

Record LayoutWidget {E : Engine} := mkLayoutWidget {
  hide_unused_layers : bool;
  layout_view : LayoutView;
  layer_properties : option PosixPath;
  image : Image;
  widget : option AppLayout    (* unset until the end of __init__ *)
}.
Arguments mkLayoutWidget {E}.

Section Widget.
Context {BS : ButtonState} {E : Engine}.

(** The effect of one call on the session.  Attribute writes on the
    active cellview and on layer references act on the part of the
    session the widget sees; taking a screenshot reads; everything
    else is the engine's business. *)
Definition exec (c : Call.t) (s : Session Core) : Session Core :=
  match c with
  | Call.set_cell c' => set_active_cell c' s
  | Call.set_on_image_updated_event => s
  | Call.set_visible i b => set_layers (alter (with_visible b) i (layers s)) s
  | Call.set_name i n => set_layers (alter (with_name n) i (layers s)) s
  | Call.get_screenshot_pixels => s
  | _ => step c s
  end.

Definition invoke (c : Call.t) (lv : LayoutView) : LayoutView :=
  mkLayoutView (exec c (session lv)) (calls lv ++ [c]).

Definition set_layout_view (lv : LayoutView) (w : LayoutWidget) :=
  mkLayoutWidget (hide_unused_layers w) lv (layer_properties w)
                 (image w) (widget w).
Definition set_image (i : Image) (w : LayoutWidget) :=
  mkLayoutWidget (hide_unused_layers w) (layout_view w) (layer_properties w)
                 i (widget w).
Definition set_widget (a : option AppLayout) (w : LayoutWidget) :=
  mkLayoutWidget (hide_unused_layers w) (layout_view w) (layer_properties w)
                 (image w) a.
Definition set_layer_properties (p : option PosixPath) (w : LayoutWidget) :=
  mkLayoutWidget (hide_unused_layers w) (layout_view w) p (image w) (widget w).

(** [get_screenshot_pixels().to_png_data()] *)
Definition png_screenshot (lv : LayoutView) : list Byte.byte * LayoutView :=
  (to_png_data (screenshot (session lv)),
   invoke Call.get_screenshot_pixels lv).

Definition show_cell (c : option Cell) (lv : LayoutView) : LayoutView :=
  let lv := invoke (Call.set_cell c) lv in
  let lv := invoke Call.max_hier lv in
  let lv := invoke (Call.resize 800 600) lv in
  let lv := invoke Call.add_missing_layers lv in
  invoke Call.zoom_fit lv.

Definition refresh (w : LayoutWidget) : LayoutWidget :=
  let lv := invoke Call.timer (layout_view w) in
  let '(png_data, lv) := png_screenshot lv in
  let w := set_image (mkImage png_data (format (image w))) w in
  set_layout_view (invoke Call.timer lv) w.

Definition button_toggle (button : Button) (w : LayoutWidget)
  : Button * LayoutWidget :=
  let color :=
    if String.eqb (button_color button) (default_color button)
    then "transparent" else default_color button in
  let button := mkButton color (default_color button)
                         (layer_props button) (button_name button) in
  let lv := layout_view w in
  let '(button, lv) :=
    match list_find (fun props => props = layer_props button)
                    (layers (session lv)) with
    | Some (i, props) =>
        let flipped := negb (visible props) in
        let lv := invoke (Call.set_visible i flipped) lv in
        let lv := invoke (Call.set_name i (button_name button)) lv in
        let props := with_name (button_name button)
                               (with_visible flipped props) in
        (mkButton (button_color button) (default_color button)
                  props (button_name button), lv)
    | None => (button, lv)
    end in
  (button, refresh (set_layout_view lv w)).

(** The [for _i in range(n_children)] loop of [build_layer_toggle]:
    advance the shared iterator, then build the entry it points at. *)
Fixpoint for_children
         (build : LayerPropertiesIterator ->
                  outcome (option HBox * LayerPropertiesIterator))
         (n_children : nat) (prop_iter : LayerPropertiesIterator)
         (children : list HBox)
  : outcome (list HBox * LayerPropertiesIterator) :=
  match n_children with
  | O => Done (children, prop_iter)
  | S n =>
      let prop_iter := next prop_iter in
      do (_layer_toggle, prop_iter) <- build prop_iter;
      let children :=
        match _layer_toggle with
        | Some t => children ++ [t]
        | None => children
        end in
      for_children build n prop_iter children
  end.

Fixpoint build_layer_toggle (fuel : nat) (w : LayoutWidget)
         (prop_iter : LayerPropertiesIterator)
  : outcome (option HBox * LayerPropertiesIterator) :=
  match fuel with
  | O => OutOfFuel
  | S fuel =>
      let props := current prop_iter in
      let layer_color :=
        String.append "#" (format_06x (eff_fill_color props)) in
      let style_color :=
        if visible props then layer_color else "transparent" in
      let layer_checkbox name := mkButton style_color layer_color props name in
      if has_children props then
        let prop_iter := down_first_child prop_iter in
        let n_children := num_siblings prop_iter in
        do (children, prop_iter) <-
           for_children (build_layer_toggle fuel w) n_children prop_iter [];
        match children with
        | [] => Done (None, prop_iter)
        | _ =>
            let layer_label := Accordion children (name props) in
            Done (Some (mkHBox (layer_checkbox (name props)) layer_label),
                  prop_iter)
        end
      else
        match active_cell (session (layout_view w)) with
        | None => Raised (AttributeError "bbox_per_layer")
        | Some cell =>
            if empty (bbox_per_layer cell (layer_index (current prop_iter)))
            then Done (None, prop_iter)
            else
              let label_value :=
                if negb (String.eqb (name props) "") then name props
                else String.append (format_int (source_layer props))
                       (String.append "/"
                          (format_int (source_datatype props))) in
              Done (Some (mkHBox (layer_checkbox label_value)
                                 (Label label_value)),
                    prop_iter)
        end
  end.

(** The [while not prop_iter.at_end()] loop of [build_selector] and
    [on_select_cell]. *)
Fixpoint all_boxes_loop (fuel : nat) (w : LayoutWidget)
         (prop_iter : LayerPropertiesIterator) (all_boxes : list HBox)
  : outcome (list HBox) :=
  match fuel with
  | O => OutOfFuel
  | S fuel =>
      if at_end prop_iter then Done all_boxes
      else
        do (layer_toggle, prop_iter) <- build_layer_toggle fuel w prop_iter;
        let all_boxes :=
          match layer_toggle with
          | Some t => all_boxes ++ [t]
          | None => all_boxes
          end in
        all_boxes_loop fuel w (next prop_iter) all_boxes
  end.

Definition build_modes (w : LayoutWidget) (max_height : Z) : ToggleButtons :=
  let modes := mode_names (session (layout_view w)) in
  mkToggleButtons modes.

(** The callback [build_modes] registers on the mode buttons. *)
Definition build_modes_switch_mode (mode : Change ToggleButtons string)
           (w : LayoutWidget) : LayoutWidget :=
  set_layout_view (invoke (Call.switch_mode (new mode)) (layout_view w)) w.

(** The [switch_mode] that [__init__] defines and never registers. *)
Definition init_switch_mode (buttons_value : string)
           (w : LayoutWidget) : LayoutWidget :=
  refresh (set_layout_view
             (invoke (Call.switch_mode buttons_value) (layout_view w)) w).

Fixpoint build_cell_selector (c : Cell) : Node :=
  match c with
  | mkCell cname _ child_cells =>
      mkNode cname (List.map build_cell_selector child_cells)
  end.

Definition build_selector (fuel : nat) (w : LayoutWidget) (max_height : Z)
  : outcome Tab :=
  let prop_iter := begin_layers (session (layout_view w)) in
  do all_boxes <- all_boxes_loop fuel w prop_iter [];
  let cells :=
    List.map build_cell_selector
             (top_cells (layout (session (layout_view w)))) in
  Done (mkTab all_boxes cells).

Definition load_layout (filepath : string) (layer_properties : option string)
           (w : LayoutWidget) : LayoutWidget :=
  let lv := invoke (Call.load_layout filepath) (layout_view w) in
  let lv := invoke Call.max_hier lv in
  let lv :=
    match layer_properties with
    | Some p =>
        if negb (String.eqb p "") then invoke (Call.load_layer_props p) lv
        else lv
    | None => lv
    end in
  set_layout_view lv w.

(** A handler that may stop on an exception: the state it leaves
    behind, and how it ended. *)
Definition on_select_cell (fuel : nat) (ev : Change Node bool)
           (w : LayoutWidget) : LayoutWidget * outcome unit :=
  let lv := layout_view w in
  let c := cell (layout (session lv)) (node_name (owner ev)) in
  let w := set_layout_view (show_cell c lv) w in
  let max_height := viewport_height (session (layout_view w)) in
  let prop_iter := begin_layers (session (layout_view w)) in
  match all_boxes_loop fuel w prop_iter [] with
  | Raised e => (w, Raised e)
  | OutOfFuel => (w, OutOfFuel)
  | Done all_boxes =>
      match widget w with
      | None => (w, Raised (AttributeError "widget"))
      | Some app =>
          match right_sidebar app with
          | None => (w, Raised (AttributeError "children"))
          | Some tabs =>
              let tabs := mkTab all_boxes (tree tabs) in
              let app := mkAppLayout (left_sidebar app) (Some tabs) in
              (refresh (set_widget (Some app) w), Done tt)
          end
      end
  end.

Definition on_scroll (ev : Event) (w : LayoutWidget) : LayoutWidget :=
  let lv := invoke Call.timer (layout_view w) in
  let delta := int (deltaY ev) in
  let x := relativeX ev in
  let y := relativeY ev in
  let buttons := _get_modifier_buttons ev in
  let lv :=
    invoke (Call.send_wheel_event (- delta) false (mkDPoint x y) buttons) lv in
  refresh (set_layout_view lv w).

Definition on_mouse (ev : Event) (w : LayoutWidget) : LayoutWidget :=
  let lv := invoke Call.timer (layout_view w) in
  let x := relativeX ev in
  let y := relativeY ev in
  let moved_x := movementX ev in
  let moved_y := movementY ev in
  let buttons := _get_modifier_buttons ev in
  let lv :=
    if String.eqb (event ev) "mousedown" then
      invoke (Call.send_mouse_press_event
                (mkDPoint (float x) (float y)) buttons) lv
    else if String.eqb (event ev) "mouseup" then
      invoke (Call.send_mouse_release_event
                (mkDPoint (float x) (float y)) buttons) lv
    else if String.eqb (event ev) "mousemove" then
      invoke (Call.send_mouse_move_event
                (mkDPoint (float x) (float y)) buttons) lv
    else lv in
  let w := refresh (set_layout_view lv w) in
  set_layout_view (invoke Call.timer (layout_view w)) w.

Definition on_mouse_enter (ev : Event) (w : LayoutWidget) : LayoutWidget :=
  let lv := invoke Call.timer (layout_view w) in
  let lv := invoke Call.send_enter_event lv in
  refresh (set_layout_view lv w).

Definition on_mouse_leave (ev : Event) (w : LayoutWidget) : LayoutWidget :=
  let lv := invoke Call.timer (layout_view w) in
  let lv := invoke Call.send_leave_event lv in
  refresh (set_layout_view lv w).

(** [Path.exists()] and [Path.is_file()]: both stat the path as [str]
    writes it. *)
Definition path_exists (fs : FileSystem) (p : PosixPath) : outcome bool :=
  match fs (str p) with
  | st_mode _ => Done true
  | not_found => Done false
  | os_error errno => Raised (OSError errno)
  end.
Definition path_is_file (fs : FileSystem) (p : PosixPath) : outcome bool :=
  match fs (str p) with
  | st_mode k => Done (bool_decide (k = RegularFile))
  | not_found => Done false
  | os_error errno => Raised (OSError errno)
  end.

Definition __init__ (fuel : nat) (fs : FileSystem)
           (cell : KCell) (layer_properties : option string)
           (hide_unused_layers with_layer_selector : bool)
  : outcome LayoutWidget :=
  let lv := mkLayoutView new_LayoutView [] in
  let lv := invoke (Call.show_layout (klib cell) false) lv in
  let self_layer_properties := option_map Path layer_properties in
  do lv <-
     match self_layer_properties with
     | Some p =>
         do there <- path_exists fs p;
         do regular <- (if there then path_is_file fs p else Done false);
         Done (if regular
               then invoke (Call.load_layer_props (str p)) lv
               else lv)
     | None => Done lv
     end;
  let lv := show_cell (Some (kdb_cell cell)) lv in
  let '(png_data, lv) := png_screenshot lv in
  let self :=
    mkLayoutWidget hide_unused_layers lv self_layer_properties
                   (mkImage png_data "png") None in
  let self := refresh self in
  (* The view is told to call [refresh] whenever it has updated its
     image; the refreshes it then asks for are calls of [refresh] like
     any other. *)
  let self :=
    set_layout_view
      (invoke Call.set_on_image_updated_event (layout_view self)) self in
  let max_height := viewport_height (session (layout_view self)) in
  do selector_tabs <-
     (if with_layer_selector
      then do t <- build_selector fuel self max_height; Done (Some t)
      else Done None);
  let mode_selector := build_modes self max_height in
  Done (set_widget (Some (mkAppLayout mode_selector selector_tabs)) self).

(** [n] clicks on the same button. *)
Definition toggle_n (n : nat) (bw : Button * LayoutWidget)
  : Button * LayoutWidget :=
  Nat.iter n (fun bw => button_toggle bw.1 bw.2) bw.

End Widget.

(** ** Vocabulary of the statements *)

(** A flag contributes its bits when its condition holds. *)
Definition flag (cond : bool) (bits : Z) : Z := if cond then bits else 0.

(** The calls that inject a press, a release or a move. *)
Definition injects_mouse (c : Call.t) : bool :=
  match c with
  | Call.send_mouse_press_event _ _
  | Call.send_mouse_release_event _ _
  | Call.send_mouse_move_event _ _ => true
  | _ => false
  end.

(** The calls a construction without layer properties file makes. *)
Definition construction_calls (cell : KCell) : list Call.t :=
  [Call.show_layout (klib cell) false;
   Call.set_cell (Some (kdb_cell cell)); Call.max_hier; Call.resize 800 600;
   Call.add_missing_layers; Call.zoom_fit;
   Call.get_screenshot_pixels;
   Call.timer; Call.get_screenshot_pixels; Call.timer;
   Call.set_on_image_updated_event].

(** What identifies a layer entry besides the two attributes a toggle
    writes. *)
Definition layer_key (p : LayerProperties) : Z * Z * N * Z * bool :=
  (source_layer p, source_datatype p, eff_fill_color p, layer_index p,
   has_children p).

(** At most one entry of the table agrees with [s] on everything but
    visibility and name. *)
Definition sole_match (s : LayerProperties) (table : list LayerProperties)
  : Prop :=
  forall i j p q,
    table !! i = Some p -> table !! j = Some q ->
    layer_key p = layer_key s -> layer_key q = layer_key s -> i = j.

(** The effect of one click on the button's stored properties and on
    the layer table. *)
Definition toggle_table (bname : string)
           (st : LayerProperties * list LayerProperties)
  : LayerProperties * list LayerProperties :=
  match list_find (fun props => props = st.1) st.2 with
  | Some (i, props) =>
      let flipped := negb (visible props) in
      (with_name bname (with_visible flipped props),
       alter (with_name bname) i (alter (with_visible flipped) i st.2))
  | None => st
  end.

(** The event with another button mask, or another wheel delta. *)
Definition with_buttons (b : Z) (ev : Event) : Event :=
  mkEvent (event ev) (shiftKey ev) (altKey ev) (ctrlKey ev) b (deltaY ev)
          (relativeX ev) (relativeY ev) (movementX ev) (movementY ev).
Definition with_deltaY (d : Q) (ev : Event) : Event :=
  mkEvent (event ev) (shiftKey ev) (altKey ev) (ctrlKey ev) (buttons ev) d
          (relativeX ev) (relativeY ev) (movementX ev) (movementY ev).

(** The six flag constants, and what it takes to tell them apart in an
    OR: none is zero and no two share a bit. *)
Definition masks {BS : ButtonState} : list Z :=
  [ShiftKey; AltKey; ControlKey; LeftButton; RightButton; MidButton].
Definition separate (l : list Z) : Prop :=
  (forall a, In a l -> a <> 0)
  /\ forall i j a b,
      l !! i = Some a -> l !! j = Some b -> i <> j -> Z.land a b = 0.

(** The checkbox shows its layer's state: filled with the layer colour
    when the stored properties are visible, transparent when not. *)
Definition in_sync (b : Button) : Prop :=
  button_color b
  = if visible (layer_props b) then default_color b else "transparent".

(** The names in a cell tree node, parents before children. *)
Fixpoint node_names (n : Node) : list string :=
  match n with
  | mkNode s ns =>
      s :: (fix go (l : list Node) : list string :=
              match l with
              | [] => []
              | n' :: l' => node_names n' ++ go l'
              end) ns
  end.

Definition tree_names (t : list Node) : list string :=
  concat (List.map node_names t).

(** The engine keeps the active cell across a call. *)
Definition keeps_active_cell {E : Engine} (c : Call.t) : Prop :=
  forall s, active_cell (step c s) = active_cell s.

(** Reading a hexadecimal string back. *)
Definition hex_value (c : ascii) : N :=
  match c with
  | "0" => 0 | "1" => 1 | "2" => 2 | "3" => 3 | "4" => 4 | "5" => 5
  | "6" => 6 | "7" => 7 | "8" => 8 | "9" => 9 | "a" => 10 | "b" => 11
  | "c" => 12 | "d" => 13 | "e" => 14 | "f" => 15 | _ => 0
  end%N%char.

Fixpoint parse_hex_from (acc : N) (s : string) : N :=
  match s with
  | EmptyString => acc
  | String c s' => parse_hex_from (16 * acc + hex_value c)%N s'
  end.

Definition parse_hex (s : string) : N := parse_hex_from 0 s.

(** The file system has no regular file at the path: it reports the
    path missing, or something there that is not a regular file. *)
Definition not_regular (fs : FileSystem) (p : PosixPath) : Prop :=
  fs (str p) = not_found
  \/ exists k, fs (str p) = st_mode k /\ k <> RegularFile.

(** The layer walk is finite: a measure of what is left of it that
    [next] strictly lowers (down to zero), that [down_first_child] does
    not raise, and that is zero only at the end, where no entry has
    children. *)
Definition finite_walk {E : Engine}
           (remaining : LayerPropertiesIterator -> nat) : Prop :=
  (forall it, (remaining (next it) <= Nat.pred (remaining it))%nat)
  /\ (forall it, (remaining (down_first_child it) <= remaining it)%nat)
  /\ (forall it, remaining it = O ->
                 at_end it = true /\ has_children (current it) = false).

(** The calls between the cell switch and the selector walk that must
    leave the active cell alone for the walk to find it. *)
Definition housekeeping : list Call.t :=
  [Call.max_hier; Call.resize 800 600; Call.add_missing_layers;
   Call.zoom_fit; Call.timer].

(** [__init__] in two steps: the view once the layer properties path
    has been dealt with, and the rest of the construction on that
    view. *)
Definition loaded_view {E : Engine} (fs : FileSystem)
           (path : option PosixPath) (lv : LayoutView) : outcome LayoutView :=
  match path with
  | Some p =>
      do there <- path_exists fs p;
      do regular <- (if there then path_is_file fs p else Done false);
      Done (if regular
            then invoke (Call.load_layer_props (str p)) lv
            else lv)
  | None => Done lv
  end.

Definition construct_on {E : Engine} (fuel : nat) (cell : KCell)
           (stored : option PosixPath)
           (hide_unused_layers with_layer_selector : bool)
           (lv : LayoutView) : outcome LayoutWidget :=
  let lv := show_cell (Some (kdb_cell cell)) lv in
  let '(png_data, lv) := png_screenshot lv in
  let self :=
    mkLayoutWidget hide_unused_layers lv stored
                   (mkImage png_data "png") None in
  let self := refresh self in
  let self :=
    set_layout_view
      (invoke Call.set_on_image_updated_event (layout_view self)) self in
  let max_height := viewport_height (session (layout_view self)) in
  do selector_tabs <-
     (if with_layer_selector
      then do t <- build_selector fuel self max_height; Done (Some t)
      else Done None);
  let mode_selector := build_modes self max_height in
  Done (set_widget (Some (mkAppLayout mode_selector selector_tabs)) self).

(** ** A small engine to run the widget on

    Enough of a viewer to execute the handlers: a flat layer list, an
    animation phase that every timer tick advances while animation is
    on, and a rendering that shows the phase, the interaction mode, the
    visibility column and the name of the active cell. *)
Module Toy.

Record state := mkCore { phase : N; animated : bool; mode : string }.

Definition set_core (c : state) (s : Session state) : Session state :=
  mkSession (layers s) (layout s) (active_cell s) c.

Definition react (c : Call.t) (s : Session state) : Session state :=
  match c with
  | Call.show_layout l _ =>
      mkSession (layers s) l (active_cell s) (core s)
  | Call.timer =>
      if animated (core s)
      then set_core (mkCore (phase (core s) + 1) true (mode (core s))) s
      else s
  | Call.switch_mode m =>
      set_core (mkCore (phase (core s)) (animated (core s)) m) s
  | _ => s
  end.

Definition byte_of_N (n : N) : Byte.byte :=
  match Byte.of_N (n mod 256) with
  | Some b => b
  | None => Byte.x00
  end.

Definition render (s : Session state) : list Byte.byte :=
  byte_of_N (phase (core s))
    :: byte_of_N (N.of_nat (String.length (mode (core s))))
    :: List.map (fun p => if visible p then Byte.x01 else Byte.x00) (layers s)
    ++ match active_cell s with
       | Some c => list_byte_of_string (cell_name c)
       | None => []
       end.

Definition engine : Engine :=
  {| Core := state;
     PixelBuffer := list Byte.byte;
     LayerPropertiesIterator := list LayerProperties;
     new_LayoutView :=
       mkSession [] (mkLayout []) None (mkCore 0 false "select");
     step := react;
     screenshot := render;
     to_png_data := fun b => b;
     viewport_height := fun _ => 600;
     mode_names := fun _ => ["select"; "move"; "ruler"];
     begin_layers := fun s => layers s;
     at_end := fun it => match it with [] => true | _ => false end;
     next := fun it => List.tl it;
     current := fun it =>
       List.hd (mkProps false "" 0 0 0 (-1) false) it;
     down_first_child := fun it => it;
     num_siblings := fun it => length it |}.

(** Two layer entries on the same source that differ only in
    visibility, and a cell with a shape on that layer. *)
Definition metal_hidden : LayerProperties :=
  mkProps false "M1" 1 0 255 0 false.
Definition metal_shown : LayerProperties :=
  mkProps true "M1" 1 0 255 0 false.
Definition via : LayerProperties :=
  mkProps true "" 2 0 65280 1 false.

Definition top_cell : Cell :=
  mkCell "top" (fun layer => if layer <? 2 then mkBox 0 0 10 10
                             else mkBox 1 1 (-1) (-1))
         [mkCell "child" (fun _ => mkBox 1 1 (-1) (-1)) []].

Definition lib : Layout := mkLayout [top_cell].

Definition view (ls : list LayerProperties) (anim : bool)
  : @LayoutView engine :=
  @mkLayoutView engine
    (mkSession ls lib (Some top_cell) (mkCore 0 anim "select")) [].

Definition a_widget (ls : list LayerProperties) (anim : bool)
  : @LayoutWidget engine :=
  @mkLayoutWidget engine true (view ls anim) None (mkImage [] "png")
                 (Some (mkAppLayout (mkToggleButtons [])
                                    (Some (mkTab [] [])))).

Definition click : Event :=
  mkEvent "mousedown" true false false 1 0 (12 # 1) (7 # 1) 0 0.
Definition wheel : Event :=
  mkEvent "wheel" false false true 0 (-250 # 2) (12 # 1) (7 # 1) 0 0.
Definition contextmenu : Event :=
  mkEvent "contextmenu" false false false 2 0 (12 # 1) (7 # 1) 0 0.

(** The button the selector builds for the second of the twin entries. *)
Definition twin_button : Button :=
  mkButton "#0000ff" "#0000ff" metal_shown "M1".

(** The same engine with a timer that has nothing to do. *)
Definition calm : Engine :=
  {| Core := state;
     PixelBuffer := list Byte.byte;
     LayerPropertiesIterator := list LayerProperties;
     new_LayoutView :=
       mkSession [] (mkLayout []) None (mkCore 0 false "select");
     step := fun c s => match c with Call.timer => s | _ => react c s end;
     screenshot := render;
     to_png_data := fun b => b;
     viewport_height := fun _ => 600;
     mode_names := fun _ => ["select"; "move"; "ruler"];
     begin_layers := fun s => layers s;
     at_end := fun it => match it with [] => true | _ => false end;
     next := fun it => List.tl it;
     current := fun it =>
       List.hd (mkProps false "" 0 0 0 (-1) false) it;
     down_first_child := fun it => it;
     num_siblings := fun it => length it |}.

Definition calm_widget (ls : list LayerProperties) : @LayoutWidget calm :=
  @mkLayoutWidget calm true
    (@mkLayoutView calm
       (mkSession ls lib (Some top_cell) (mkCore 0 true "select")) [])
    None (mkImage [] "png")
    (Some (mkAppLayout (mkToggleButtons []) (Some (mkTab [] [])))).

(** A disk with nothing on it, on which names longer than 255 bytes
    are refused (ENAMETOOLONG), and one holding a single entry. *)
Definition empty_disk : FileSystem :=
  fun p => if (255 <? String.length p)%nat then os_error 36 else not_found.
Definition disk_with (name : string) (k : FileKind) : FileSystem :=
  fun p => if String.eqb p name then st_mode k else empty_disk p.
Definition long_name : string :=
  String.concat "" (List.repeat "a" 300).

Definition nudge : Event :=
  mkEvent "wheel" false false false 0 (-1 # 2) (12 # 1) (7 # 1) 0 0.

(** A widget built without layer selector. *)
Definition bare_widget : @LayoutWidget engine :=
  @mkLayoutWidget engine true (view [via] false) None (mkImage [] "png")
    (Some (mkAppLayout (mkToggleButtons []) None)).

Definition select_child : Change Node bool :=
  mkChange (mkNode "child" []) true.

(** A group entry, for the walk. *)
Definition group : LayerProperties := mkProps true "metals" 0 0 0 0 true.

End Toy.

(** ** Modifier decoding *)


Lemma truthy_land_bit (b k : Z) :
  0 <= k -> truthy (Z.land b (2 ^ k)) = Z.testbit b k.
Proof.
  intros Hk. unfold truthy.
  destruct (Z.testbit b k) eqn:Hb.
  - destruct (Z.eqb_spec (Z.land b (2 ^ k)) 0) as [H0|]; [|reflexivity].
    exfalso.
    assert (Hbit : Z.testbit (Z.land b (2 ^ k)) k = true).
    { rewrite Z.land_spec, Hb, Z.pow2_bits_true by assumption. reflexivity. }
    rewrite H0, Z.bits_0 in Hbit. discriminate.
  - replace (Z.land b (2 ^ k)) with 0; [reflexivity|].
    symmetry. apply Z.bits_inj'. intros n Hn.
    rewrite Z.land_spec, Z.bits_0, Z.pow2_bits_eqb by assumption.
    destruct (Z.eqb_spec k n) as [->|]; [rewrite Hb|]; auto using andb_false_r.
Qed.

Lemma land_lor_same (a b : Z) : Z.land (Z.lor a b) b = b.
Proof.
  apply Z.bits_inj'. intros n _.
  rewrite Z.land_spec, Z.lor_spec.
  destruct (Z.testbit a n), (Z.testbit b n); reflexivity.
Qed.

Lemma land_lor_keep (a b c : Z) :
  Z.land a c = c -> Z.land (Z.lor a b) c = c.
Proof.
  intros H. rewrite Z.land_lor_distr_l, H.
  apply Z.bits_inj'. intros n _.
  rewrite Z.lor_spec, Z.land_spec.
  destruct (Z.testbit c n), (Z.testbit b n); reflexivity.
Qed.

Section ModifierProps.
Context {BS : ButtonState}.

Lemma _get_modifier_buttons_flags (ev : Event) :
  _get_modifier_buttons ev =
  Z.lor (Z.lor (Z.lor (Z.lor (Z.lor (flag (shiftKey ev) ShiftKey)
                                    (flag (altKey ev) AltKey))
                             (flag (ctrlKey ev) ControlKey))
                      (flag (Z.testbit (buttons ev) 0) LeftButton))
               (flag (Z.testbit (buttons ev) 1) RightButton))
        (flag (Z.testbit (buttons ev) 2) MidButton).
Proof.
  unfold _get_modifier_buttons.
  rewrite (truthy_land_bit (buttons ev) 0 ltac:(lia) : truthy (Z.land _ 1) = _).
  rewrite (truthy_land_bit (buttons ev) 1 ltac:(lia) : truthy (Z.land _ 2) = _).
  rewrite (truthy_land_bit (buttons ev) 2 ltac:(lia) : truthy (Z.land _ 4) = _).
  destruct (shiftKey ev), (altKey ev), (ctrlKey ev),
    (Z.testbit (buttons ev) 0), (Z.testbit (buttons ev) 1),
    (Z.testbit (buttons ev) 2); cbn [flag];
    rewrite ?Z.lor_0_r, ?Z.lor_0_l; reflexivity.
Qed.

(** C1.  Shift with the left button held decodes to exactly
    [ShiftKey | LeftButton]; a button mask of 3 always yields both the
    LeftButton and the RightButton bits; and in general the result is
    the bitwise OR of the three key flags and of the three button
    flags read off bits 0 (left), 1 (right) and 2 (middle) of the
    browser's button mask. *)
Theorem modifier_buttons_decoding :
  (forall kind dy rx ry mx my,
      _get_modifier_buttons (mkEvent kind true false false 1 dy rx ry mx my)
      = Z.lor ShiftKey LeftButton)
  /\ (forall kind shift alt ctrl dy rx ry mx my,
         let flags :=
           _get_modifier_buttons
             (mkEvent kind shift alt ctrl 3 dy rx ry mx my) in
         Z.land flags LeftButton = LeftButton
         /\ Z.land flags RightButton = RightButton)
  /\ (forall ev,
         _get_modifier_buttons ev =
         Z.lor (Z.lor (Z.lor (flag (shiftKey ev) ShiftKey)
                             (flag (altKey ev) AltKey))
                      (flag (ctrlKey ev) ControlKey))
               (Z.lor (Z.lor (flag (Z.land (buttons ev) 1 =? 1) LeftButton)
                             (flag (Z.land (buttons ev) 2 =? 2) RightButton))
                      (flag (Z.land (buttons ev) 4 =? 4) MidButton))).
Proof.
  split; [|split].
  - intros. rewrite _get_modifier_buttons_flags. cbn.
    rewrite ?Z.lor_0_r. reflexivity.
  - intros. subst flags. rewrite _get_modifier_buttons_flags.
    cbn [shiftKey altKey ctrlKey buttons].
    change (Z.testbit 3 0) with true. change (Z.testbit 3 1) with true.
    change (Z.testbit 3 2) with false. cbn [flag]. rewrite Z.lor_0_r.
    split.
    + apply land_lor_keep, land_lor_same.
    + apply land_lor_same.
  - intros ev. rewrite _get_modifier_buttons_flags.
    assert (Hbit : forall k, 0 <= k ->
              (Z.land (buttons ev) (2 ^ k) =? 2 ^ k)
              = Z.testbit (buttons ev) k).
    { intros k Hk. pose proof (truthy_land_bit (buttons ev) k Hk) as Ht.
      unfold truthy in Ht.
      destruct (Z.testbit (buttons ev) k) eqn:Hb.
      - apply Z.eqb_eq. apply Z.bits_inj'. intros n Hn.
        rewrite Z.land_spec, Z.pow2_bits_eqb by assumption.
        destruct (Z.eqb_spec k n) as [->|]; [rewrite Hb|];
          auto using andb_false_r.
      - apply negb_false_iff, Z.eqb_eq in Ht. rewrite Ht.
        apply Z.eqb_neq. intros H0. symmetry in H0.
        apply Z.pow_nonzero in H0; [assumption|lia|assumption]. }
    rewrite <- (Hbit 0 ltac:(lia)), <- (Hbit 1 ltac:(lia)),
      <- (Hbit 2 ltac:(lia)).
    change (2 ^ 0) with 1. change (2 ^ 1) with 2. change (2 ^ 2) with 4.
    rewrite !Z.lor_assoc. reflexivity.
Qed.

End ModifierProps.

(** ** Frames and the calls behind them *)


Section Frames.
Context {BS : ButtonState} {E : Engine}.

Lemma refresh_frame (w : LayoutWidget) :
  value (image (refresh w))
  = to_png_data (screenshot (step Call.timer (session (layout_view w)))).
Proof. reflexivity. Qed.

Lemma refresh_session (w : LayoutWidget) :
  session (layout_view (refresh w))
  = step Call.timer (step Call.timer (session (layout_view w))).
Proof. reflexivity. Qed.

Lemma refresh_calls (w : LayoutWidget) :
  calls (layout_view (refresh w))
  = calls (layout_view w)
    ++ [Call.timer; Call.get_screenshot_pixels; Call.timer].
Proof. cbn. rewrite <- !app_assoc. reflexivity. Qed.

(** Every handler that ends in [refresh] leaves the frame that was
    captured one timer tick before the state it returns in. *)
Lemma refresh_publishes (w : LayoutWidget) :
  exists captured,
    value (image (refresh w)) = to_png_data (screenshot captured)
    /\ session (layout_view (refresh w)) = step Call.timer captured.
Proof. eexists. split; reflexivity. Qed.

(** C8.  [show_cell] issues, in this order, the cell switch, the full
    hierarchy depth, the 800 by 600 canvas, the completion of the layer
    table and the zoom fit; the frame a following [refresh] publishes
    is captured from the session these calls produced (after the timer
    tick [refresh] starts with) and owes nothing to the frame shown
    before. *)
Theorem show_cell_then_refresh (c : Cell) (w : LayoutWidget) :
  let lv := show_cell (Some c) (layout_view w) in
  let w' := refresh (set_layout_view lv w) in
  calls lv = calls (layout_view w)
             ++ [Call.set_cell (Some c); Call.max_hier; Call.resize 800 600;
                 Call.add_missing_layers; Call.zoom_fit]
  /\ session lv
     = step Call.zoom_fit
         (step Call.add_missing_layers
            (step (Call.resize 800 600)
               (step Call.max_hier
                  (set_active_cell (Some c) (session (layout_view w))))))
  /\ value (image w')
     = to_png_data (screenshot (step Call.timer (session lv)))
  /\ calls (layout_view w')
     = calls lv ++ [Call.timer; Call.get_screenshot_pixels; Call.timer]
  /\ forall previous,
      value (image (refresh (set_image previous (set_layout_view lv w))))
      = value (image w').
Proof.
  cbn zeta. repeat split.
  - cbn. rewrite <- !app_assoc. reflexivity.
  - apply refresh_calls.
Qed.

(** C9.  [on_scroll] hands the session the negated integer part of
    [deltaY], with the event's coordinates and decoded modifier flags
    as they are, between the timer tick that opens the handler and the
    refresh that closes it. *)
Theorem on_scroll_negates_delta (ev : Event) (w : LayoutWidget) :
  let wheel :=
    Call.send_wheel_event (- int (deltaY ev)) false
      (mkDPoint (relativeX ev) (relativeY ev)) (_get_modifier_buttons ev) in
  calls (layout_view (on_scroll ev w))
  = calls (layout_view w)
    ++ [Call.timer; wheel;
        Call.timer; Call.get_screenshot_pixels; Call.timer]
  /\ session (layout_view (on_scroll ev w))
     = step Call.timer
         (step Call.timer
            (step wheel (step Call.timer (session (layout_view w))))).
Proof.
  cbn zeta. split; [|reflexivity].
  unfold on_scroll. rewrite refresh_calls. cbn.
  rewrite <- !app_assoc. reflexivity.
Qed.

(** C10.  For an event that is neither a mousedown, a mouseup nor a
    mousemove, [on_mouse] sends the session timer ticks only (no press,
    release or move), and still captures a screenshot and puts it in
    the image. *)
Theorem on_mouse_other_kind (ev : Event) (w : LayoutWidget) :
  event ev <> "mousedown" ->
  event ev <> "mouseup" ->
  event ev <> "mousemove" ->
  let s := session (layout_view w) in
  let sent := [Call.timer; Call.timer; Call.get_screenshot_pixels;
               Call.timer; Call.timer] in
  calls (layout_view (on_mouse ev w)) = calls (layout_view w) ++ sent
  /\ forallb (fun c => negb (injects_mouse c)) sent = true
  /\ session (layout_view (on_mouse ev w))
     = step Call.timer (step Call.timer (step Call.timer (step Call.timer s)))
  /\ value (image (on_mouse ev w))
     = to_png_data (screenshot (step Call.timer (step Call.timer s))).
Proof.
  intros Hdown Hup Hmove. cbn zeta. unfold on_mouse.
  apply String.eqb_neq in Hdown, Hup, Hmove.
  rewrite Hdown, Hup, Hmove.
  repeat split.
  cbn. rewrite <- !app_assoc. reflexivity.
Qed.

(** The registered mode callback changes the session and leaves the
    image as it was: it takes no screenshot. *)
Lemma build_modes_switch_mode_keeps_frame
      (mode : Change ToggleButtons string) (w : LayoutWidget) :
  image (build_modes_switch_mode mode w) = image w
  /\ calls (layout_view (build_modes_switch_mode mode w))
     = calls (layout_view w) ++ [Call.switch_mode (new mode)]
  /\ session (layout_view (build_modes_switch_mode mode w))
     = step (Call.switch_mode (new mode)) (session (layout_view w)).
Proof. repeat split. Qed.

(** C3 (as amended).  When one timer tick settles the session, so that
    a further tick changes nothing, two refreshes in a row publish the
    same bytes and leave the same image and the same session. *)
Theorem refresh_twice_settled (w : LayoutWidget) :
  step Call.timer (step Call.timer (session (layout_view w)))
  = step Call.timer (session (layout_view w)) ->
  value (image (refresh (refresh w))) = value (image (refresh w))
  /\ image (refresh (refresh w)) = image (refresh w)
  /\ session (layout_view (refresh (refresh w)))
     = session (layout_view (refresh w)).
Proof.
  intros Hsettled.
  assert (Hframe : value (image (refresh (refresh w)))
                   = value (image (refresh w))).
  { rewrite (refresh_frame (refresh w)), refresh_session, refresh_frame.
    rewrite !Hsettled. reflexivity. }
  split; [exact Hframe|]. split.
  - destruct (image (refresh (refresh w))) as [v2 f2] eqn:H2.
    destruct (image (refresh w)) as [v1 f1] eqn:H1.
    cbn in Hframe. subst v2. f_equal.
    change f2 with (format (mkImage v1 f2)). rewrite <- H2.
    change f1 with (format (mkImage v1 f1)). rewrite <- H1.
    reflexivity.
  - rewrite (refresh_session (refresh w)), refresh_session.
    rewrite !Hsettled. reflexivity.
Qed.

End Frames.

(** ** The layer selector *)

Section Selector.
Context {E : Engine}.

Lemma for_children_ext
      (f g : LayerPropertiesIterator ->
             outcome (option HBox * LayerPropertiesIterator)) :
  (forall it, f it = g it) ->
  forall n it acc, for_children f n it acc = for_children g n it acc.
Proof.
  intros Hfg n. induction n as [|n IH]; intros it acc; cbn.
  - reflexivity.
  - rewrite Hfg. destruct (g (next it)) as [[t it']| |]; cbn; auto.
Qed.



End Selector.

(** ** Cell selection and construction *)

Section Construction.
Context {E : Engine}.


Lemma for_children_raises
      (build : LayerPropertiesIterator ->
               outcome (option HBox * LayerPropertiesIterator))
      (P : exn -> Prop) :
  (forall it e, build it = Raised e -> P e) ->
  forall n it acc e, for_children build n it acc = Raised e -> P e.
Proof.
  intros Hbuild n. induction n as [|n IH]; intros it acc e; cbn;
    [discriminate|].
  destruct (build (next it)) as [[t it']| |] eqn:Hb; cbn.
  - apply IH.
  - intros [= <-]. eapply Hbuild, Hb.
  - discriminate.
Qed.

Lemma build_layer_toggle_raises (w : LayoutWidget) :
  forall fuel it e,
    build_layer_toggle fuel w it = Raised e ->
    e = AttributeError "bbox_per_layer"
    /\ active_cell (session (layout_view w)) = None.
Proof.
  induction fuel as [|fuel IH]; intros it e; [discriminate|].
  cbn [build_layer_toggle].
  destruct (has_children (current it)).
  - destruct (for_children _ _ _ _) as [[children it']| |] eqn:Hfor;
      cbn [bind].
    + destruct children; discriminate.
    + intros [= <-].
      apply (for_children_raises _ _ (IH) _ _ _ _ Hfor).
    + discriminate.
  - destruct (active_cell _); [|intros [= <-]; split; reflexivity].
    destruct (empty _); discriminate.
Qed.

Lemma all_boxes_loop_raises (w : LayoutWidget) :
  forall fuel it acc e,
    all_boxes_loop fuel w it acc = Raised e ->
    e = AttributeError "bbox_per_layer"
    /\ active_cell (session (layout_view w)) = None.
Proof.
  induction fuel as [|fuel IH]; intros it acc e; [discriminate|].
  cbn [all_boxes_loop]. destruct (at_end it); [discriminate|].
  destruct (build_layer_toggle fuel w it) as [[t it']| |] eqn:Hb; cbn [bind].
  - apply IH.
  - intros [= <-]. eapply build_layer_toggle_raises, Hb.
  - discriminate.
Qed.


Lemma for_children_terminates
      (remaining : LayerPropertiesIterator -> nat) (bound : nat)
      (build : LayerPropertiesIterator ->
               outcome (option HBox * LayerPropertiesIterator)) :
  finite_walk remaining ->
  (forall it, (remaining it <= bound)%nat ->
              exists r it', build it = Done (r, it')
                            /\ (remaining it' <= remaining it)%nat) ->
  forall n it acc,
    (remaining it <= S bound)%nat ->
    exists children it',
      for_children build n it acc = Done (children, it')
      /\ (remaining it' <= remaining it)%nat.
Proof.
  intros (Hnext & _ & _) Hbuild n.
  induction n as [|n IH]; intros it acc Hit; cbn [for_children].
  - eauto.
  - pose proof (Hnext it) as Hn.
    destruct (Hbuild (next it) ltac:(lia)) as (r & it2 & -> & Hit2).
    cbn [bind].
    destruct (IH it2 (match r with
                      | Some t => acc ++ [t]
                      | None => acc
                      end) ltac:(lia)) as (cs & it' & -> & Hit').
    exists cs, it'. split; [reflexivity|lia].
Qed.

Lemma build_layer_toggle_terminates
      (remaining : LayerPropertiesIterator -> nat)
      (w : LayoutWidget) (active : Cell) :
  finite_walk remaining ->
  active_cell (session (layout_view w)) = Some active ->
  forall fuel it,
    (remaining it < fuel)%nat ->
    exists r it',
      build_layer_toggle fuel w it = Done (r, it')
      /\ (remaining it' <= remaining it)%nat.
Proof.
  intros Hwalk Hactive.
  pose proof Hwalk as (Hnext & Hdown & Hend).
  induction fuel as [|fuel IH]; intros it Hit; [lia|].
  cbn [build_layer_toggle].
  destruct (has_children (current it)) eqn:Hkids.
  - assert (Hpos : remaining it <> O).
    { intros H0. apply Hend in H0 as [_ H0]. congruence. }
    destruct fuel as [|fuel0]; [lia|].
    destruct (for_children_terminates remaining fuel0
                (build_layer_toggle (S fuel0) w) Hwalk
                (fun it0 H => IH it0 ltac:(lia))
                (num_siblings (down_first_child it))
                (down_first_child it) []
                ltac:(pose proof (Hdown it); lia))
      as (children & it' & -> & Hit').
    cbn [bind]. pose proof (Hdown it).
    destruct children; eexists; eexists; (split; [reflexivity|lia]).
  - rewrite Hactive.
    destruct (empty _); eexists; eexists; (split; [reflexivity|lia]).
Qed.

Lemma all_boxes_loop_terminates
      (remaining : LayerPropertiesIterator -> nat)
      (w : LayoutWidget) (active : Cell) :
  finite_walk remaining ->
  active_cell (session (layout_view w)) = Some active ->
  forall fuel it acc,
    (S (remaining it) < fuel)%nat ->
    exists boxes, all_boxes_loop fuel w it acc = Done boxes.
Proof.
  intros Hwalk Hactive.
  pose proof Hwalk as (Hnext & Hdown & Hend).
  induction fuel as [|fuel IH]; intros it acc Hit; [lia|].
  cbn [all_boxes_loop].
  destruct (at_end it) eqn:Hat; [eauto|].
  assert (Hpos : remaining it <> O).
  { intros H0. apply Hend in H0 as [H0 _]. congruence. }
  destruct (build_layer_toggle_terminates remaining w active Hwalk Hactive
              fuel it ltac:(lia)) as (r & it' & -> & Hit').
  cbn [bind]. pose proof (Hnext it').
  apply IH. lia.
Qed.

Lemma all_boxes_loop_ignores_path
      (p : option PosixPath) (w : LayoutWidget) :
  forall fuel it acc,
    all_boxes_loop fuel (set_layer_properties p w) it acc
    = all_boxes_loop fuel w it acc.
Proof.
  assert (Hbuild : forall fuel it,
             build_layer_toggle fuel (set_layer_properties p w) it
             = build_layer_toggle fuel w it).
  { induction fuel as [|fuel IH]; intros it; [reflexivity|].
    cbn [build_layer_toggle].
    destruct (has_children (current it)).
    - rewrite (for_children_ext _ _ IH). reflexivity.
    - reflexivity. }
  induction fuel as [|fuel IH]; intros it acc; [reflexivity|].
  cbn [all_boxes_loop]. destruct (at_end it); [reflexivity|].
  rewrite Hbuild.
  destruct (build_layer_toggle fuel w it) as [[t it']| |]; cbn; auto.
Qed.

Lemma refresh_set_layer_properties
      (p : option PosixPath) (w : LayoutWidget) :
  refresh (set_layer_properties p w) = set_layer_properties p (refresh w).
Proof. reflexivity. Qed.

Lemma build_selector_ignores_path
      (fuel : nat) (p : option PosixPath) (w : LayoutWidget) (h h' : Z) :
  build_selector fuel (set_layer_properties p w) h = build_selector fuel w h'.
Proof.
  unfold build_selector. rewrite all_boxes_loop_ignores_path. reflexivity.
Qed.

Lemma init_calls_without_path
      (fuel : nat) (fs : FileSystem) (cell : KCell)
      (hide_unused_layers with_layer_selector : bool) (w : LayoutWidget) :
  __init__ fuel fs cell None hide_unused_layers with_layer_selector = Done w ->
  calls (layout_view w) = construction_calls cell.
Proof.
  unfold __init__, png_screenshot. cbn beta iota zeta. cbn [option_map bind].
  intros Hw.
  destruct with_layer_selector.
  - match type of Hw with
    | context [build_selector fuel ?w0 ?h] =>
        destruct (build_selector fuel w0 h) as [tabs| |];
          cbn in Hw; try discriminate
    end.
    injection Hw as <-. reflexivity.
  - cbn in Hw. injection Hw as <-. reflexivity.
Qed.

Lemma init_ignores_missing_path
      (fuel : nat) (fs : FileSystem) (cell : KCell)
      (p : string) (hide_unused_layers with_layer_selector : bool) :
  not_regular fs (Path p) ->
  __init__ fuel fs cell (Some p) hide_unused_layers with_layer_selector
  = outcome_map (set_layer_properties (Some (Path p)))
      (__init__ fuel fs cell None hide_unused_layers with_layer_selector).
Proof.
  intros Hpath. unfold __init__, png_screenshot.
  cbn [option_map]. unfold path_exists, path_is_file.
  assert (Hskip :
            forall lv : LayoutView,
              (do there <- match fs (str (Path p)) with
                           | st_mode _ => Done true
                           | not_found => Done false
                           | os_error errno => Raised (OSError errno)
                           end;
               do regular <- (if there
                              then match fs (str (Path p)) with
                                   | st_mode k =>
                                       Done (bool_decide (k = RegularFile))
                                   | not_found => Done false
                                   | os_error errno => Raised (OSError errno)
                                   end
                              else Done false);
               Done (if regular
                     then invoke (Call.load_layer_props (str (Path p))) lv
                     else lv)) = Done lv).
  { intros lv. destruct Hpath as [->|(k & -> & Hk)]; cbn [bind].
    - reflexivity.
    - rewrite bool_decide_eq_false_2 by exact Hk. reflexivity. }
  rewrite Hskip. cbn beta iota zeta. cbn [bind].
  set (lv := invoke Call.get_screenshot_pixels _).
  set (img := mkImage _ "png").
  set (w0 := mkLayoutWidget hide_unused_layers lv None img None).
  change (mkLayoutWidget hide_unused_layers lv (Some (Path p)) img None)
    with (set_layer_properties (Some (Path p)) w0).
  rewrite refresh_set_layer_properties.
  change (set_layout_view
            (invoke Call.set_on_image_updated_event
               (layout_view (set_layer_properties (Some (Path p))
                               (refresh w0))))
            (set_layer_properties (Some (Path p)) (refresh w0)))
    with (set_layer_properties (Some (Path p))
            (set_layout_view
               (invoke Call.set_on_image_updated_event
                  (layout_view (refresh w0))) (refresh w0))).
  set (w1 := set_layout_view _ (refresh w0)).
  destruct with_layer_selector; [|reflexivity].
  rewrite (build_selector_ignores_path fuel (Some (Path p)) w1 _
             (viewport_height (session (layout_view w1)))).
  destruct (build_selector fuel w1 _) as [tabs| |]; reflexivity.
Qed.

Lemma init_returns_without_path
      (remaining : LayerPropertiesIterator -> nat)
      (fs : FileSystem) (cell : KCell)
      (hide_unused_layers with_layer_selector : bool) :
  finite_walk remaining ->
  Forall keeps_active_cell housekeeping ->
  exists fuel0,
    forall fuel,
      (fuel0 <= fuel)%nat ->
      exists w,
        __init__ fuel fs cell None hide_unused_layers with_layer_selector
        = Done w.
Proof.
  intros Hwalk Hkeep.
  unfold housekeeping in Hkeep.
  apply Forall_cons in Hkeep as [H1 Hkeep].
  apply Forall_cons in Hkeep as [H2 Hkeep].
  apply Forall_cons in Hkeep as [H3 Hkeep].
  apply Forall_cons in Hkeep as [H4 Hkeep].
  apply Forall_cons in Hkeep as [H5 _].
  unfold __init__, png_screenshot. cbn beta iota zeta. cbn [option_map bind].
  set (lv := invoke Call.get_screenshot_pixels _).
  set (img := mkImage _ "png").
  set (w0 := mkLayoutWidget hide_unused_layers lv None img None).
  set (w1 := set_layout_view _ (refresh w0)).
  assert (Hactive : active_cell (session (layout_view w1))
                    = Some (kdb_cell cell)).
  { subst w1 w0 lv. cbn. rewrite H5, H5, H4, H3, H2, H1. reflexivity. }
  exists (S (S (remaining (begin_layers (session (layout_view w1)))))).
  intros fuel Hfuel.
  destruct with_layer_selector; [|eexists; reflexivity].
  unfold build_selector.
  destruct (all_boxes_loop_terminates remaining w1 (kdb_cell cell)
              Hwalk Hactive fuel
              (begin_layers (session (layout_view w1))) [] ltac:(lia))
    as (boxes & ->).
  eexists. reflexivity.
Qed.

(** C4 (as amended).  When the file system reports the layer properties
    path missing, or holds something there that is not a regular file,
    construction goes exactly as it does without a path, apart from
    remembering the path: same outcome, same session and image.  On an
    engine whose layer walk is finite and whose housekeeping calls keep
    the active cell it returns a widget, given enough fuel for the
    walk, having made the calls of a path-less construction, none of
    which loads a properties file. *)
Theorem init_missing_layer_properties
        (remaining : LayerPropertiesIterator -> nat)
        (fs : FileSystem) (cell : KCell) (p : string)
        (hide_unused_layers with_layer_selector : bool) :
  not_regular fs (Path p) ->
  finite_walk remaining ->
  Forall keeps_active_cell housekeeping ->
  (forall fuel,
      __init__ fuel fs cell (Some p) hide_unused_layers with_layer_selector
      = outcome_map (set_layer_properties (Some (Path p)))
          (__init__ fuel fs cell None hide_unused_layers
                    with_layer_selector))
  /\ exists fuel0,
      forall fuel,
        (fuel0 <= fuel)%nat ->
        exists w,
          __init__ fuel fs cell (Some p) hide_unused_layers
                   with_layer_selector = Done w
          /\ calls (layout_view w) = construction_calls cell
          /\ (forall q, ~ In (Call.load_layer_props q)
                             (calls (layout_view w)))
          /\ layer_properties w = Some (Path p).
Proof.
  intros Hpath Hwalk Hkeep.
  split; [intros fuel; apply init_ignores_missing_path, Hpath|].
  destruct (init_returns_without_path remaining fs cell hide_unused_layers
              with_layer_selector Hwalk Hkeep) as (fuel0 & Hreturns).
  exists fuel0. intros fuel Hfuel.
  destruct (Hreturns fuel Hfuel) as (w0 & Hw0).
  exists (set_layer_properties (Some (Path p)) w0).
  rewrite (init_ignores_missing_path _ _ _ _ _ _ Hpath), Hw0.
  apply init_calls_without_path in Hw0.
  cbn [outcome_map layout_view set_layer_properties layer_properties].
  rewrite Hw0. repeat split.
  intros q. unfold construction_calls. cbn. intuition discriminate.
Qed.

End Construction.

(** ** Layer toggling *)


Section Toggle.
Context {E : Engine}.


Lemma button_toggle_table (button : Button) (w : LayoutWidget) :
  (forall s, layers (step Call.timer s) = layers s) ->
  let bw := button_toggle button w in
  (layer_props bw.1, layers (session (layout_view bw.2)))
  = toggle_table (button_name button)
      (layer_props button, layers (session (layout_view w)))
  /\ button_name bw.1 = button_name button.
Proof.
  intros Htimer. unfold button_toggle, toggle_table. cbn.
  destruct (list_find _ _) as [[i props]|]; cbn;
    rewrite !Htimer; split; reflexivity.
Qed.

Lemma toggle_n_table (n : nat) (button : Button) (w : LayoutWidget) :
  (forall s, layers (step Call.timer s) = layers s) ->
  let bw := toggle_n n (button, w) in
  (layer_props bw.1, layers (session (layout_view bw.2)))
  = Nat.iter n (toggle_table (button_name button))
      (layer_props button, layers (session (layout_view w)))
  /\ button_name bw.1 = button_name button.
Proof.
  intros Htimer. induction n as [|n [IHt IHn]]; [split; reflexivity|].
  cbn zeta in *. unfold toggle_n in *. rewrite !Nat.iter_succ.
  destruct (Nat.iter n (fun bw => button_toggle bw.1 bw.2) (button, w))
    as [b' w'].
  cbn [fst snd] in *.
  destruct (button_toggle_table b' w' Htimer) as [Ht Hn].
  cbn zeta in Ht, Hn. rewrite Ht, Hn, IHt, IHn. split; reflexivity.
Qed.

End Toggle.

Lemma fmap_alter_commute {A B} (f : A -> B) (g : A -> A) (h : B -> B)
      (l : list A) (i : nat) :
  (forall a, f (g a) = h (f a)) -> f <$> alter g i l = alter h i (f <$> l).
Proof.
  intros Hfg. apply list_fmap_alter, Forall_forall. intros a _. apply Hfg.
Qed.

Lemma visible_after_toggle (bn : string) (v : bool) (i : nat)
      (table : list LayerProperties) :
  visible <$> alter (with_name bn) i (alter (with_visible v) i table)
  = alter (fun _ => v) i (visible <$> table).
Proof.
  rewrite (fmap_alter_commute visible _ id) by reflexivity.
  rewrite list_alter_id by reflexivity.
  apply fmap_alter_commute. reflexivity.
Qed.

Lemma toggle_table_keys (bn : string) (s : LayerProperties)
      (table : list LayerProperties) :
  layer_key (toggle_table bn (s, table)).1 = layer_key s
  /\ layer_key <$> (toggle_table bn (s, table)).2 = layer_key <$> table.
Proof.
  unfold toggle_table. cbn [fst snd].
  destruct (list_find _ table) as [[i props]|] eqn:Hfind; cbn [fst snd].
  - apply list_find_Some in Hfind as (_ & -> & _). split; [reflexivity|].
    rewrite !(fmap_alter_commute layer_key _ id) by reflexivity.
    rewrite !list_alter_id by reflexivity. reflexivity.
  - split; reflexivity.
Qed.

Lemma sole_match_keys (s s' : LayerProperties)
      (table table' : list LayerProperties) :
  layer_key s' = layer_key s ->
  layer_key <$> table' = layer_key <$> table ->
  sole_match s table -> sole_match s' table'.
Proof.
  intros Hs Ht Hsole i j p q Hi Hj Hp Hq.
  assert (Hlook : forall k r, table' !! k = Some r ->
                    exists r0, table !! k = Some r0
                               /\ layer_key r0 = layer_key r).
  { intros k r Hk.
    assert (Hfk : (layer_key <$> table') !! k = Some (layer_key r))
      by (rewrite list_lookup_fmap, Hk; reflexivity).
    rewrite Ht in Hfk. apply list_lookup_fmap_Some in Hfk as (r0 & ? & ?).
    exists r0. split; congruence. }
  destruct (Hlook i p Hi) as (p0 & Hi0 & Hp0).
  destruct (Hlook j q Hj) as (q0 & Hj0 & Hq0).
  apply (Hsole i j p0 q0); congruence.
Qed.

Lemma toggle_table_twice (bn : string) (s : LayerProperties)
      (table : list LayerProperties) :
  sole_match s table ->
  visible <$> (toggle_table bn (toggle_table bn (s, table))).2
  = visible <$> table.
Proof.
  intros Hsole. unfold toggle_table at 2. cbn [fst snd].
  destruct (list_find _ table) as [[i props]|] eqn:Hfind.
  - apply list_find_Some in Hfind as (Hi & -> & _).
    cbn zeta.
    set (s' := with_name bn (with_visible (negb (visible s)) s)).
    set (table' := alter (with_name bn) i
                     (alter (with_visible (negb (visible s))) i table)).
    assert (Hi' : table' !! i = Some s').
    { subst table' s'. rewrite !list_lookup_alter_eq, Hi. reflexivity. }
    assert (Hfind' : list_find (fun props => props = s') table'
                     = Some (i, s')).
    { apply list_find_Some. split; [exact Hi'|]. split; [reflexivity|].
      intros j y Hj Hlt ->.
      assert (Hj0 : table !! j = Some s').
      { subst table'. rewrite !list_lookup_alter_ne in Hj by lia. exact Hj. }
      assert (j = i) by (apply (Hsole j i s' s Hj0 Hi); reflexivity).
      lia. }
    unfold toggle_table. cbn [fst snd]. rewrite Hfind'. cbn [snd].
    subst table'.
    rewrite !visible_after_toggle, list_alter_alter_eq.
    transitivity (<[i := visible s]> (visible <$> table)).
    { rewrite list_insert_alter. subst s'.
      cbn [visible with_name with_visible]. rewrite negb_involutive.
      reflexivity. }
    apply list_insert_id. rewrite list_lookup_fmap, Hi. reflexivity.
  - unfold toggle_table. cbn [fst snd]. rewrite Hfind. reflexivity.
Qed.

Lemma toggle_table_even (bn : string) (m : nat) :
  forall s table,
    sole_match s table ->
    visible <$> (Nat.iter (2 * m) (toggle_table bn) (s, table)).2
    = visible <$> table.
Proof.
  induction m as [|m IH]; intros s table Hsole; [reflexivity|].
  replace (2 * S m)%nat with (2 * m + 2)%nat by lia.
  rewrite Nat.iter_add, !Nat.iter_succ. cbn [Nat.iter nat_rect].
  destruct (toggle_table bn (toggle_table bn (s, table))) as [s2 table2]
    eqn:H2.
  assert (Hvis : visible <$> table2 = visible <$> table).
  { pose proof (toggle_table_twice bn s table Hsole) as Ht.
    rewrite H2 in Ht. exact Ht. }
  assert (Hsole2 : sole_match s2 table2).
  { destruct (toggle_table bn (s, table)) as [s1 table1] eqn:H1.
    pose proof (toggle_table_keys bn s table) as [Hk1 Ht1].
    rewrite H1 in Hk1, Ht1. cbn [fst snd] in Hk1, Ht1.
    pose proof (toggle_table_keys bn s1 table1) as [Hk2 Ht2].
    rewrite H2 in Hk2, Ht2. cbn [fst snd] in Hk2, Ht2.
    apply (sole_match_keys s s2 table table2);
      [congruence|congruence|exact Hsole]. }
  rewrite (IH s2 table2 Hsole2). exact Hvis.
Qed.

(** C2 (as amended).  If timer ticks leave the layer table alone and at
    most one entry of the table agrees with the button's stored layer
    properties on everything but visibility and name, then an even
    number of clicks on the button leaves every visibility flag of the
    table as it was. *)
Theorem even_toggles_restore_visibility {E : Engine}
        (n : nat) (button : Button) (w : LayoutWidget) :
  (forall s, layers (step Call.timer s) = layers s) ->
  sole_match (layer_props button) (layers (session (layout_view w))) ->
  Nat.Even n ->
  visible <$> layers (session (layout_view (toggle_n n (button, w)).2))
  = visible <$> layers (session (layout_view w)).
Proof.
  intros Htimer Hsole [m ->].
  destruct (toggle_n_table (2 * m) button w Htimer) as [Ht _].
  cbn zeta in Ht.
  change (layers (session (layout_view (toggle_n (2 * m) (button, w)).2)))
    with (layer_props (toggle_n (2 * m) (button, w)).1,
          layers (session (layout_view (toggle_n (2 * m) (button, w)).2))).2.
  rewrite Ht. apply toggle_table_even, Hsole.
Qed.

(** ** Further properties of the event handlers *)

Lemma land_flag_own (c : bool) (m : Z) : Z.land (flag c m) m = flag c m.
Proof. destruct c; cbn; [apply Z.land_diag|reflexivity]. Qed.

Lemma land_flag_other (c : bool) (a m : Z) :
  Z.land a m = 0 -> Z.land (flag c a) m = 0.
Proof. intros H. destruct c; cbn; [exact H|reflexivity]. Qed.

Lemma flag_read_back (c : bool) (m : Z) : m <> 0 -> (flag c m =? m) = c.
Proof.
  intros Hm. destruct c; cbn [flag]; [apply Z.eqb_refl|].
  apply Z.eqb_neq. congruence.
Qed.

Lemma int_small (q : Q) : (-1 < q)%Q -> (q < 1)%Q -> int q = 0.
Proof.
  destruct q as [n d]. unfold Qlt, int. cbn. intros Hlo Hhi.
  destruct (Z.le_gt_cases 0 n) as [Hn|Hn].
  - apply Z.quot_small. lia.
  - replace n with (- - n) by lia. rewrite Z.quot_opp_l by lia.
    rewrite Z.quot_small by lia. reflexivity.
Qed.

Lemma int_opp (q : Q) : int (- q) = - int q.
Proof.
  destruct q as [n d]. unfold int. cbn. apply Z.quot_opp_l. lia.
Qed.

Ltac a_mask :=
  (exists 0%nat) + (exists 1%nat) + (exists 2%nat) + (exists 3%nat)
  + (exists 4%nat) + (exists 5%nat).
Ltac two_masks :=
  solve [a_mask; a_mask; split; [reflexivity|split; [reflexivity|lia]]].

Section MoreModifiers.
Context {BS : ButtonState}.

Lemma other_flag_off (l : list Z) (c : bool) (a b : Z) :
  (forall i j a b c,
      l !! i = Some a -> l !! j = Some b -> i <> j ->
      Z.land (flag c a) b = 0) ->
  (exists i j, l !! i = Some a /\ l !! j = Some b /\ i <> j) ->
  Z.land (flag c a) b = 0.
Proof. intros Hall (i & j & Hi & Hj & Hij). eauto. Qed.

(** X1.  Only the three low bits of the browser's button mask take part
    in the decoding: masking the rest away changes nothing, so the
    fourth and fifth mouse buttons (8, 16) never reach the session. *)
Theorem modifier_buttons_low_bits (ev : Event) :
  _get_modifier_buttons (with_buttons (Z.land (buttons ev) 7) ev)
  = _get_modifier_buttons ev.
Proof.
  rewrite !_get_modifier_buttons_flags.
  cbn [with_buttons shiftKey altKey ctrlKey buttons].
  rewrite !Z.land_spec.
  change (Z.testbit 7 0) with true. change (Z.testbit 7 1) with true.
  change (Z.testbit 7 2) with true. rewrite !andb_true_r. reflexivity.
Qed.

(** X2.  When none of the six flag constants is zero and no two of them
    share a bit, every input of the decoding can be read back from its
    result: a flag's bits are all set exactly when its key was down or
    its button bit was set. *)
Theorem modifier_flags_read_back (ev : Event) :
  separate masks ->
  let r := _get_modifier_buttons ev in
  (Z.land r ShiftKey =? ShiftKey) = shiftKey ev
  /\ (Z.land r AltKey =? AltKey) = altKey ev
  /\ (Z.land r ControlKey =? ControlKey) = ctrlKey ev
  /\ (Z.land r LeftButton =? LeftButton) = Z.testbit (buttons ev) 0
  /\ (Z.land r RightButton =? RightButton) = Z.testbit (buttons ev) 1
  /\ (Z.land r MidButton =? MidButton) = Z.testbit (buttons ev) 2.
Proof.
  intros [Hnz Hd]. cbn zeta. rewrite _get_modifier_buttons_flags.
  assert (Hpair : forall i j a b,
             masks !! i = Some a -> masks !! j = Some b -> i <> j ->
             forall c, Z.land (flag c a) b = 0).
  { intros i j a b Hi Hj Hij c. apply land_flag_other. eauto. }
  assert (Hown : forall a c, In a masks -> (flag c a =? a) = c).
  { intros a c Hin. apply flag_read_back, Hnz, Hin. }
  assert (Hall : forall i j a b c,
             masks !! i = Some a -> masks !! j = Some b -> i <> j ->
             Z.land (flag c a) b = 0) by eauto.
  repeat split; rewrite !Z.land_lor_distr_l, !land_flag_own;
    repeat match goal with
      | |- context [Z.land (flag ?c ?a) ?b] =>
          rewrite (other_flag_off _ c a b Hall) by two_masks
      end;
    rewrite ?Z.lor_0_l, ?Z.lor_0_r; apply Hown; cbn; tauto.
Qed.

End MoreModifiers.

Section MoreHandlers.
Context {BS : ButtonState} {E : Engine}.

(** X3.  [int] truncates toward zero, so [on_scroll] treats both
    directions alike: the opposite [deltaY] forwards the opposite delta,
    and a [deltaY] strictly between -1 and 1 forwards a wheel event of
    delta 0. *)
Theorem on_scroll_truncates (ev : Event) (w : LayoutWidget) :
  let wheel d :=
    Call.send_wheel_event d false
      (mkDPoint (relativeX ev) (relativeY ev)) (_get_modifier_buttons ev) in
  let sent d :=
    [Call.timer; wheel d; Call.timer; Call.get_screenshot_pixels;
     Call.timer] in
  calls (layout_view (on_scroll (with_deltaY (- deltaY ev) ev) w))
  = calls (layout_view w) ++ sent (int (deltaY ev))
  /\ ((-1 < deltaY ev)%Q -> (deltaY ev < 1)%Q ->
      calls (layout_view (on_scroll ev w)) = calls (layout_view w) ++ sent 0).
Proof.
  cbn zeta. split.
  - unfold on_scroll. rewrite refresh_calls. cbn.
    rewrite int_opp, Z.opp_involutive, <- !app_assoc. reflexivity.
  - intros Hlo Hhi. unfold on_scroll. rewrite refresh_calls. cbn.
    rewrite (int_small _ Hlo Hhi), <- !app_assoc. reflexivity.
Qed.

(** X4.  [on_mouse] forwards a mousedown as one press, a mouseup as one
    release and a mousemove as one move, each at the event's relative
    coordinates with the decoded modifier flags, after one timer tick
    and before the refresh and the closing tick. *)
Theorem on_mouse_forwards_kind (ev : Event) (w : LayoutWidget) :
  let p := mkDPoint (relativeX ev) (relativeY ev) in
  let flags := _get_modifier_buttons ev in
  let sent c :=
    calls (layout_view w)
    ++ [Call.timer; c; Call.timer; Call.get_screenshot_pixels; Call.timer;
        Call.timer] in
  (event ev = "mousedown" ->
   calls (layout_view (on_mouse ev w))
   = sent (Call.send_mouse_press_event p flags))
  /\ (event ev = "mouseup" ->
      calls (layout_view (on_mouse ev w))
      = sent (Call.send_mouse_release_event p flags))
  /\ (event ev = "mousemove" ->
      calls (layout_view (on_mouse ev w))
      = sent (Call.send_mouse_move_event p flags)).
Proof.
  cbn zeta. unfold on_mouse.
  repeat split; intros ->; cbn; rewrite <- !app_assoc; reflexivity.
Qed.

(** X5.  On an engine whose timer settles in one tick, every handler
    that ends in [refresh] (scroll, mouse, enter, leave, layer toggle,
    the unregistered mode switch) returns with the image holding the
    screenshot of the very session it returns. *)
Theorem refreshing_handlers_show_current_session
        (ev : Event) (button : Button) (mode : string) (w : LayoutWidget) :
  (forall s, step Call.timer (step Call.timer s) = step Call.timer s) ->
  let current (w' : LayoutWidget) :=
    value (image w') = to_png_data (screenshot (session (layout_view w'))) in
  current (refresh w)
  /\ current (on_scroll ev w)
  /\ current (on_mouse ev w)
  /\ current (on_mouse_enter ev w)
  /\ current (on_mouse_leave ev w)
  /\ current (button_toggle button w).2
  /\ current (init_switch_mode mode w).
Proof.
  intros Hsettled. cbn zeta.
  assert (Hrefresh : forall w0 : LayoutWidget,
             value (image (refresh w0))
             = to_png_data (screenshot (session (layout_view (refresh w0))))).
  { intros w0. rewrite refresh_frame, refresh_session, Hsettled.
    reflexivity. }
  repeat split; try apply Hrefresh.
  - unfold on_mouse. cbn [image set_layout_view layout_view session invoke].
    rewrite Hrefresh.
    change (exec Call.timer ?s) with (step Call.timer s).
    rewrite refresh_session, !Hsettled. reflexivity.
  - unfold button_toggle.
    destruct (list_find _ _) as [[i props]|]; apply Hrefresh.
Qed.

End MoreHandlers.

(** ** Further properties of the layer controls *)

Lemma toggle_table_at (bn : string) (s : LayerProperties)
      (table : list LayerProperties) (i : nat) :
  sole_match s table -> table !! i = Some s ->
  toggle_table bn (s, table)
  = (with_name bn (with_visible (negb (visible s)) s),
     alter (with_name bn) i
           (alter (with_visible (negb (visible s))) i table)).
Proof.
  intros Hsole Hi. unfold toggle_table. cbn [fst snd].
  assert (Hfind : list_find (fun props => props = s) table = Some (i, s)).
  { apply list_find_Some. split; [exact Hi|]. split; [reflexivity|].
    intros j y Hj Hlt ->.
    assert (j = i) by (apply (Hsole j i s s Hj Hi); reflexivity). lia. }
  rewrite Hfind. reflexivity.
Qed.

Lemma toggle_table_iter (bn : string) (s : LayerProperties)
      (table : list LayerProperties) (i : nat) :
  sole_match s table -> table !! i = Some s ->
  forall n,
    let st := Nat.iter n (toggle_table bn) (s, table) in
    st.2 !! i = Some st.1
    /\ layer_key st.1 = layer_key s
    /\ layer_key <$> st.2 = layer_key <$> table
    /\ visible <$> st.2
       = <[i := xorb (visible s) (Nat.odd n)]> (visible <$> table).
Proof.
  intros Hsole Hi n. cbn zeta.
  induction n as [|n (IHi & IHk & IHt & IHv)].
  - cbn. repeat split; [exact Hi|].
    rewrite xorb_false_r. symmetry. apply list_insert_id.
    rewrite list_lookup_fmap, Hi. reflexivity.
  - rewrite Nat.iter_succ.
    destruct (Nat.iter n (toggle_table bn) (s, table)) as [sn tn].
    cbn [fst snd] in *.
    assert (Hsole_n : sole_match sn tn)
      by (apply (sole_match_keys s sn table tn); assumption).
    rewrite (toggle_table_at bn sn tn i Hsole_n IHi). cbn [fst snd].
    assert (Hvis : visible sn = xorb (visible s) (Nat.odd n)).
    { assert (Hl : (visible <$> tn) !! i = Some (visible sn))
        by (rewrite list_lookup_fmap, IHi; reflexivity).
      rewrite IHv, list_lookup_insert_eq in Hl; [congruence|].
      rewrite length_fmap. apply lookup_lt_Some in Hi. exact Hi. }
    repeat split.
    + rewrite !list_lookup_alter_eq, IHi. reflexivity.
    + exact IHk.
    + rewrite !(fmap_alter_commute layer_key _ id) by reflexivity.
      rewrite !list_alter_id by reflexivity. exact IHt.
    + rewrite visible_after_toggle, <- list_insert_alter, IHv.
      rewrite list_insert_insert_eq, Hvis, Nat.odd_succ, <- Nat.negb_odd.
      destruct (visible s), (Nat.odd n); reflexivity.
Qed.

Lemma append_slash_nonempty (a b : string) :
  String.append a (String.append "/" b) <> "".
Proof. destruct a; discriminate. Qed.

Section MoreToggle.
Context {E : Engine}.

(** X7.  When the button's stored properties are entry [i] of the layer
    table and no other entry agrees with them apart from visibility and
    name (and timer ticks leave the table alone), [n] clicks leave every
    other entry's visibility as it was and entry [i] flipped exactly
    when [n] is odd; the button stays bound to entry [i]. *)
Theorem toggle_n_visibility
        (n i : nat) (button : Button) (w : LayoutWidget) :
  (forall s, layers (step Call.timer s) = layers s) ->
  sole_match (layer_props button) (layers (session (layout_view w))) ->
  layers (session (layout_view w)) !! i = Some (layer_props button) ->
  let after := toggle_n n (button, w) in
  visible <$> layers (session (layout_view after.2))
  = <[i := xorb (visible (layer_props button)) (Nat.odd n)]>
      (visible <$> layers (session (layout_view w)))
  /\ layers (session (layout_view after.2)) !! i = Some (layer_props after.1).
Proof.
  intros Htimer Hsole Hi. cbn zeta.
  destruct (toggle_n_table n button w Htimer) as [Ht _]. cbn zeta in Ht.
  destruct (toggle_table_iter (button_name button) _ _ i Hsole Hi n)
    as (Hi' & _ & _ & Hv).
  cbn zeta in Hi', Hv. rewrite <- Ht in Hi', Hv. cbn [fst snd] in Hi', Hv.
  split; assumption.
Qed.

(** X8.  A click on a button that shows its layer's state, and whose
    stored properties are in the layer table, flips the stored
    visibility and the colour together: the button still shows the
    state, and its stored properties are again an entry of the table. *)
Theorem button_toggle_keeps_sync (button : Button) (w : LayoutWidget) :
  (forall s, layers (step Call.timer s) = layers s) ->
  default_color button <> "transparent" ->
  in_sync button ->
  In (layer_props button) (layers (session (layout_view w))) ->
  let after := button_toggle button w in
  in_sync after.1
  /\ visible (layer_props after.1) = negb (visible (layer_props button))
  /\ default_color after.1 = default_color button
  /\ In (layer_props after.1) (layers (session (layout_view after.2))).
Proof.
  intros Htimer Hdefault Hsync Hin. cbn zeta.
  apply list_elem_of_In in Hin.
  destruct (list_find_elem_of (fun props => props = layer_props button)
              _ _ Hin eq_refl) as [[i props] Hfind].
  unfold button_toggle. cbn [layer_props].
  rewrite Hfind. cbn [fst snd layer_props default_color].
  apply list_find_Some in Hfind as (Hi & -> & _).
  unfold in_sync in *. cbn [button_color layer_props default_color visible
                             with_name with_visible].
  repeat split.
  - rewrite Hsync.
    destruct (visible (layer_props button)); cbn [negb].
    + rewrite String.eqb_refl. reflexivity.
    + destruct (String.eqb_spec "transparent" (default_color button))
        as [Heq|_]; [destruct (Hdefault (eq_sym Heq))|reflexivity].
  - apply list_elem_of_In. cbn. rewrite !Htimer. cbn.
    apply list_elem_of_lookup. exists i.
    rewrite !list_lookup_alter_eq, Hi. reflexivity.
Qed.

(** X9.  A click on a button whose stored properties equal no entry of
    the layer table changes no layer and keeps the stored properties,
    but still flips the colour and refreshes: a button that showed its
    layer's state no longer does. *)
Theorem button_toggle_unmatched (button : Button) (w : LayoutWidget) :
  ~ In (layer_props button) (layers (session (layout_view w))) ->
  let after := button_toggle button w in
  layer_props after.1 = layer_props button
  /\ calls (layout_view after.2)
     = calls (layout_view w)
       ++ [Call.timer; Call.get_screenshot_pixels; Call.timer]
  /\ session (layout_view after.2)
     = step Call.timer (step Call.timer (session (layout_view w)))
  /\ (default_color button <> "transparent" ->
      in_sync button -> ~ in_sync after.1).
Proof.
  intros Hnot. cbn zeta.
  assert (Hfind : list_find (fun props => props = layer_props button)
                    (layers (session (layout_view w))) = None).
  { apply list_find_None, Forall_forall. intros p Hp ->.
    apply Hnot, list_elem_of_In, Hp. }
  unfold button_toggle. cbn [layer_props]. rewrite Hfind.
  cbn [fst snd layer_props].
  repeat split.
  - rewrite refresh_calls. reflexivity.
  - intros Hdefault Hsync. unfold in_sync in *.
    cbn [button_color layer_props default_color]. rewrite Hsync.
    destruct (visible (layer_props button)).
    + rewrite String.eqb_refl. congruence.
    + destruct (String.eqb_spec "transparent" (default_color button))
        as [Heq|_]; [destruct (Hdefault (eq_sym Heq))|congruence].
Qed.

(** X10.  Whatever control [build_layer_toggle] returns is well formed:
    its checkbox stores the entry it was built from, shows that entry's
    state and has a "#"-prefixed hexadecimal default colour; a leaf's
    label is a non-empty text that is also the checkbox's name and the
    iterator has not moved; a group's label is an accordion with at
    least one child, titled with the entry's name. *)
Theorem build_layer_toggle_control
        (fuel : nat) (w : LayoutWidget)
        (prop_iter prop_iter' : LayerPropertiesIterator)
        (checkbox : Button) (label : LayerLabel) :
  build_layer_toggle fuel w prop_iter
  = Done (Some (mkHBox checkbox label), prop_iter') ->
  layer_props checkbox = current prop_iter
  /\ in_sync checkbox
  /\ default_color checkbox
     = String.append "#" (format_06x (eff_fill_color (current prop_iter)))
  /\ default_color checkbox <> "transparent"
  /\ match label with
     | Label v =>
         has_children (current prop_iter) = false
         /\ v = button_name checkbox /\ v <> "" /\ prop_iter' = prop_iter
     | Accordion children title =>
         has_children (current prop_iter) = true
         /\ children <> [] /\ title = name (current prop_iter)
         /\ button_name checkbox = title
     end.
Proof.
  destruct fuel as [|fuel]; [discriminate|].
  cbn [build_layer_toggle]. intros Hbuild.
  destruct (has_children (current prop_iter)) eqn:Hkids.
  - destruct (for_children _ _ _ _) as [[children it]| |];
      cbn [bind] in Hbuild; try discriminate.
    destruct children as [|c cs]; [discriminate|].
    injection Hbuild as <- <- <-.
    unfold in_sync. cbn. repeat split; discriminate.
  - destruct (active_cell _) as [active|]; [|discriminate].
    destruct (empty _); [discriminate|].
    injection Hbuild as <- <- <-.
    unfold in_sync. cbn. repeat split; try discriminate.
    destruct (String.eqb_spec (name (current prop_iter)) "") as [Hn|Hn];
      cbn [negb]; [apply append_slash_nonempty|exact Hn].
Qed.

End MoreToggle.

(** ** Further properties of selection and construction *)

Lemma build_cell_selector_names (c : Cell) :
  node_names (build_cell_selector c) = List.map cell_name (cells_of c).
Proof.
  revert c. fix IH 1. intros [cname boxes cs]. cbn. f_equal.
  induction cs as [|c' cs IHcs]; [reflexivity|].
  cbn. rewrite List.map_app, <- IH, <- IHcs. reflexivity.
Qed.

Lemma tree_names_cells (l : Layout) :
  tree_names (List.map build_cell_selector (top_cells l))
  = List.map cell_name (each_cell l).
Proof.
  unfold tree_names, each_cell.
  induction (top_cells l) as [|c cs IH]; [reflexivity|].
  cbn. rewrite List.map_app, build_cell_selector_names, IH. reflexivity.
Qed.

Lemma cell_found (l : Layout) (cname : string) :
  In cname (List.map cell_name (each_cell l)) ->
  exists c, cell l cname = Some c /\ cell_name c = cname.
Proof.
  intros Hin. apply in_map_iff in Hin as (c0 & Hname & Hin0).
  unfold cell.
  destruct (List.find _ (each_cell l)) as [c|] eqn:Hfind.
  - exists c. split; [reflexivity|].
    apply List.find_some in Hfind as [_ Heq]. apply String.eqb_eq, Heq.
  - pose proof (List.find_none _ _ Hfind c0 Hin0) as Hno. cbn in Hno.
    rewrite Hname, String.eqb_refl in Hno. discriminate.
Qed.

Lemma cell_name_found (l : Layout) (cname : string) (c : Cell) :
  cell l cname = Some c -> cell_name c = cname.
Proof.
  unfold cell. intros Hfind.
  apply List.find_some in Hfind as [_ Heq]. apply String.eqb_eq, Heq.
Qed.

Section MoreSelection.
Context {E : Engine}.

Lemma build_selector_tree
      (fuel : nat) (w : LayoutWidget) (max_height : Z) (tabs : Tab) :
  build_selector fuel w max_height = Done tabs ->
  tree_names (tree tabs)
  = List.map cell_name (each_cell (layout (session (layout_view w)))).
Proof.
  unfold build_selector. intros Hbuild.
  destruct (all_boxes_loop fuel w _ []) as [boxes| |];
    cbn [bind] in Hbuild; try discriminate.
  injection Hbuild as <-. cbn [tree]. apply tree_names_cells.
Qed.

(** X11.  The cell tree that [build_selector] puts in the "Cells" tab
    lists the cells of the view's layout, parents before children, and
    nothing else; so the by-name lookup that [on_select_cell] starts
    with finds a cell of that name for every node of the tree. *)
Theorem built_tree_resolves
        (fuel : nat) (w : LayoutWidget) (max_height : Z) (tabs : Tab) :
  build_selector fuel w max_height = Done tabs ->
  tree_names (tree tabs)
  = List.map cell_name (each_cell (layout (session (layout_view w))))
  /\ forall cname,
      In cname (tree_names (tree tabs)) ->
      exists c,
        cell (layout (session (layout_view w))) cname = Some c
        /\ cell_name c = cname.
Proof.
  intros Hbuild. pose proof (build_selector_tree _ _ _ _ Hbuild) as Hnames.
  split; [exact Hnames|].
  intros cname Hin. apply cell_found. rewrite <- Hnames. exact Hin.
Qed.

(** X12.  When [on_select_cell] returns normally it has shown what the
    by-name lookup gave (a cell bearing the selected node's name, if
    any) and then refreshed: the session is the one [show_cell] left,
    two timer ticks on, and the image is the screenshot taken between
    the two.  The cell tree, the mode buttons, the stored path and the
    flag are as before. *)
Theorem on_select_cell_done
        (fuel : nat) (ev : Change Node bool) (w w' : LayoutWidget) :
  on_select_cell fuel ev w = (w', Done tt) ->
  let shown :=
    cell (layout (session (layout_view w))) (node_name (owner ev)) in
  let s := session (show_cell shown (layout_view w)) in
  exists app tabs app' tabs',
    (forall c, shown = Some c -> cell_name c = node_name (owner ev))
    /\ session (layout_view w') = step Call.timer (step Call.timer s)
    /\ value (image w') = to_png_data (screenshot (step Call.timer s))
    /\ widget w = Some app /\ right_sidebar app = Some tabs
    /\ widget w' = Some app' /\ right_sidebar app' = Some tabs'
    /\ tree tabs' = tree tabs
    /\ left_sidebar app' = left_sidebar app
    /\ layer_properties w' = layer_properties w
    /\ hide_unused_layers w' = hide_unused_layers w.
Proof.
  unfold on_select_cell. cbn zeta. intros Hdone.
  destruct (all_boxes_loop _ _ _ _) as [boxes| |];
    try (injection Hdone; discriminate).
  cbn [widget set_layout_view] in Hdone.
  destruct (widget w) as [app|] eqn:Happ; [|injection Hdone; discriminate].
  destruct (right_sidebar app) as [tabs|] eqn:Htabs;
    [|injection Hdone; discriminate].
  injection Hdone as <-.
  exists app, tabs. eexists. eexists.
  split; [intros c Hc; apply (cell_name_found _ _ _ Hc)|].
  repeat split; first [assumption | reflexivity].
Qed.

(** X13.  [on_select_cell] raises attribute errors only, and only once
    [show_cell] has run: the session has been switched to what the
    lookup gave while the image is the one shown before, so the old
    frame stays on a changed session.  The error comes from a widget
    without layout or without selector tab, or from a leaf entry met
    while the view has no active cell. *)
Theorem on_select_cell_raised
        (fuel : nat) (ev : Change Node bool) (w w' : LayoutWidget)
        (e : exn) :
  on_select_cell fuel ev w = (w', Raised e) ->
  let shown :=
    cell (layout (session (layout_view w))) (node_name (owner ev)) in
  image w' = image w
  /\ w' = set_layout_view (show_cell shown (layout_view w)) w
  /\ (e = AttributeError "widget" /\ widget w = None
      \/ e = AttributeError "children"
         /\ (exists app, widget w = Some app /\ right_sidebar app = None)
      \/ e = AttributeError "bbox_per_layer"
         /\ active_cell (session (show_cell shown (layout_view w))) = None).
Proof.
  unfold on_select_cell. cbn zeta. intros Hraised.
  destruct (all_boxes_loop _ _ _ _) as [boxes| |] eqn:Hloop.
  - cbn [widget set_layout_view] in Hraised.
    destruct (widget w) as [app|] eqn:Happ.
    + destruct (right_sidebar app) as [tabs|] eqn:Htabs;
        [injection Hraised; discriminate|].
      injection Hraised as <- <-.
      split; [reflexivity|]. split; [reflexivity|]. right. left. eauto.
    + injection Hraised as <- <-.
      split; [reflexivity|]. split; [reflexivity|]. left. eauto.
  - injection Hraised as <- <-.
    apply all_boxes_loop_raises in Hloop as [-> Hnone].
    split; [reflexivity|]. split; [reflexivity|]. right. right.
    split; [reflexivity|exact Hnone].
  - injection Hraised; discriminate.
Qed.

(** X14.  If the engine's hierarchy, resize, layer completion and zoom
    calls keep the active cell, then [show_cell] leaves active what it
    was given (no cell, when given none).  Selecting a node whose name
    a cell of the layout bears, on a widget with a selector tab, then
    never ends in an exception: the walk finds a cell to measure every
    leaf against. *)
Theorem show_cell_activates
        (c : Cell) (fuel : nat) (ev : Change Node bool)
        (w : LayoutWidget) (app : AppLayout) (tabs : Tab) :
  Forall keeps_active_cell
         [Call.max_hier; Call.resize 800 600; Call.add_missing_layers;
          Call.zoom_fit] ->
  widget w = Some app -> right_sidebar app = Some tabs ->
  cell (layout (session (layout_view w))) (node_name (owner ev)) = Some c ->
  (forall shown lv, active_cell (session (show_cell shown lv)) = shown)
  /\ forall e, (on_select_cell fuel ev w).2 <> Raised e.
Proof.
  intros Hkeep Happ Htabs Hcell.
  assert (Hactive : forall shown lv,
             active_cell (session (show_cell shown lv)) = shown).
  { intros shown lv. unfold show_cell. cbn.
    apply Forall_cons in Hkeep as [H1 Hkeep].
    apply Forall_cons in Hkeep as [H2 Hkeep].
    apply Forall_cons in Hkeep as [H3 Hkeep].
    apply Forall_cons in Hkeep as [H4 _].
    rewrite H4, H3, H2, H1. reflexivity. }
  split; [exact Hactive|].
  intros e. unfold on_select_cell. cbn zeta. rewrite Hcell.
  destruct (all_boxes_loop _ _ _ _) as [boxes| |] eqn:Hloop; cbn [snd].
  - cbn [widget set_layout_view]. rewrite Happ, Htabs. discriminate.
  - apply all_boxes_loop_raises in Hloop as [_ Hnone].
    cbn [layout_view set_layout_view] in Hnone.
    rewrite Hactive in Hnone. discriminate.
  - discriminate.
Qed.

Lemma init_steps
      (fuel : nat) (fs : FileSystem) (cell : KCell) (path : option string)
      (hide_unused_layers with_layer_selector : bool) :
  __init__ fuel fs cell path hide_unused_layers with_layer_selector
  = do lv <- loaded_view fs (option_map Path path)
               (invoke (Call.show_layout (klib cell) false)
                       (mkLayoutView new_LayoutView []));
    construct_on fuel cell (option_map Path path) hide_unused_layers
                 with_layer_selector lv.
Proof. reflexivity. Qed.

Lemma loaded_view_some
      (fs : FileSystem) (p : PosixPath) (lv : LayoutView) :
  loaded_view fs (Some p) lv
  = match fs (str p) with
    | st_mode k =>
        Done (if bool_decide (k = RegularFile)
              then invoke (Call.load_layer_props (str p)) lv
              else lv)
    | not_found => Done lv
    | os_error errno => Raised (OSError errno)
    end.
Proof.
  unfold loaded_view, path_exists, path_is_file.
  destruct (fs (str p)); reflexivity.
Qed.

Lemma construct_on_calls
      (fuel : nat) (cell : KCell) (stored : option PosixPath)
      (hide_unused_layers with_layer_selector : bool)
      (lv : LayoutView) (w : LayoutWidget) :
  construct_on fuel cell stored hide_unused_layers with_layer_selector lv
  = Done w ->
  calls (layout_view w) = calls lv ++ List.tl (construction_calls cell).
Proof.
  unfold construct_on, png_screenshot. cbn beta iota zeta. intros Hw.
  destruct with_layer_selector.
  - match type of Hw with
    | context [build_selector fuel ?w0 ?h] =>
        destruct (build_selector fuel w0 h) as [tabs| |];
          cbn [bind] in Hw; try discriminate
    end.
    injection Hw as <-. cbn. rewrite <- !app_assoc. reflexivity.
  - cbn [bind] in Hw. injection Hw as <-. cbn.
    rewrite <- !app_assoc. reflexivity.
Qed.

Lemma init_calls_with_file
      (fuel : nat) (fs : FileSystem) (cell : KCell)
      (p : string) (hide_unused_layers with_layer_selector : bool)
      (w : LayoutWidget) :
  fs (str (Path p)) = st_mode RegularFile ->
  __init__ fuel fs cell (Some p) hide_unused_layers with_layer_selector
  = Done w ->
  calls (layout_view w)
  = Call.show_layout (klib cell) false
    :: Call.load_layer_props (str (Path p))
    :: List.tl (construction_calls cell).
Proof.
  intros Hfile. rewrite init_steps. cbn [option_map].
  rewrite loaded_view_some, Hfile. cbn [bind].
  rewrite bool_decide_eq_true_2 by reflexivity.
  intros Hw. apply construct_on_calls in Hw. rewrite Hw. reflexivity.
Qed.

(** X15.  When the layer properties argument, read as a path, names a
    regular file, construction loads it once, under the name the path
    is written back with (so [tech.lyp] for an argument of
    [./tech.lyp]), right after binding the layout and before the cell
    is shown; the rest of the calls are those of a path-less
    construction. *)
Theorem init_loads_regular_file
        (fuel : nat) (fs : FileSystem) (cell : KCell)
        (p : string) (hide_unused_layers with_layer_selector : bool)
        (w : LayoutWidget) :
  fs (str (Path p)) = st_mode RegularFile ->
  __init__ fuel fs cell (Some p) hide_unused_layers with_layer_selector
  = Done w ->
  calls (layout_view w)
  = Call.show_layout (klib cell) false
    :: Call.load_layer_props (str (Path p))
    :: List.tl (construction_calls cell).
Proof. apply init_calls_with_file. Qed.

(** X16.  The widget a construction returns remembers its arguments
    (the layer properties argument as a path), holds a PNG image that
    is the screenshot [refresh] took (not the one taken for the image's
    creation), offers the engine's mode names as mode buttons, and has
    a selector tab exactly when one was asked for, whose cell tree
    lists the layout's cells. *)
Theorem init_result
        (fuel : nat) (fs : FileSystem) (cell : KCell)
        (path : option string) (hide with_layer_selector : bool)
        (w : LayoutWidget) :
  __init__ fuel fs cell path hide with_layer_selector = Done w ->
  hide_unused_layers w = hide
  /\ layer_properties w = option_map Path path
  /\ format (image w) = "png"
  /\ (exists before,
         session (layout_view w) = step Call.timer (step Call.timer before)
         /\ value (image w)
            = to_png_data (screenshot (step Call.timer before)))
  /\ exists app,
      widget w = Some app
      /\ options (left_sidebar app) = mode_names (session (layout_view w))
      /\ (if with_layer_selector
          then exists tabs,
              right_sidebar app = Some tabs
              /\ tree_names (tree tabs)
                 = List.map cell_name
                     (each_cell (layout (session (layout_view w))))
          else right_sidebar app = None).
Proof.
  rewrite init_steps.
  destruct (loaded_view _ _ _) as [lv| |]; cbn [bind]; try discriminate.
  unfold construct_on, png_screenshot. cbn beta iota zeta. intros Hw.
  destruct with_layer_selector.
  - match type of Hw with
    | context [build_selector fuel ?w0 ?h] =>
        destruct (build_selector fuel w0 h) as [tabs| |] eqn:Hsel;
          cbn [bind] in Hw; try discriminate
    end.
    injection Hw as <-.
    repeat split.
    + eexists. split; reflexivity.
    + eexists. repeat split. exists tabs. split; [reflexivity|].
      apply (build_selector_tree _ _ _ _ Hsel).
  - cbn [bind] in Hw. injection Hw as <-.
    repeat split.
    + eexists. split; reflexivity.
    + eexists. repeat split.
Qed.

(** X17.  [load_layout] passes the file to the view, recomputes the
    hierarchy depth and loads a layer properties path as given, without
    looking on disk for it; an empty path counts as none.  It takes no
    screenshot: the image and the selector stay as they were. *)
Theorem load_layout_effects
        (filepath : string) (path : option string) (w : LayoutWidget) :
  image (load_layout filepath path w) = image w
  /\ widget (load_layout filepath path w) = widget w
  /\ load_layout filepath (Some "") w = load_layout filepath None w
  /\ calls (layout_view (load_layout filepath None w))
     = calls (layout_view w) ++ [Call.load_layout filepath; Call.max_hier]
  /\ forall p,
      p <> "" ->
      calls (layout_view (load_layout filepath (Some p) w))
      = calls (layout_view w)
        ++ [Call.load_layout filepath; Call.max_hier;
            Call.load_layer_props p].
Proof.
  repeat split.
  - unfold load_layout. cbn. rewrite <- !app_assoc. reflexivity.
  - intros p Hp. unfold load_layout.
    apply String.eqb_neq in Hp. rewrite Hp. cbn.
    rewrite <- !app_assoc. reflexivity.
Qed.

End MoreSelection.

(** ** The colour string *)

Lemma hex_value_digit (d : N) : (d < 16)%N -> hex_value (hex_digit d) = d.
Proof.
  intros Hd.
  assert (Hcases : (d = 0 \/ d = 1 \/ d = 2 \/ d = 3 \/ d = 4 \/ d = 5
                   \/ d = 6 \/ d = 7 \/ d = 8 \/ d = 9 \/ d = 10 \/ d = 11
                   \/ d = 12 \/ d = 13 \/ d = 14 \/ d = 15)%N) by lia.
  repeat (destruct Hcases as [->|Hcases]; [reflexivity|]).
  subst d. reflexivity.
Qed.

Lemma parse_hex_from_append (a b : string) (acc : N) :
  parse_hex_from acc (String.append a b)
  = parse_hex_from (parse_hex_from acc a) b.
Proof.
  revert acc. induction a as [|c a IH]; intros acc; [reflexivity|].
  change (String.append (String c a) b) with (String c (String.append a b)).
  cbn [parse_hex_from]. apply IH.
Qed.

Lemma zfill_zeros (pad : nat) (s : string) :
  String.length (zfill pad s) = (pad + String.length s)%nat
  /\ forall acc, parse_hex_from acc (zfill pad s) = parse_hex_from
                    (acc * 16 ^ N.of_nat pad) s.
Proof.
  revert s. induction pad as [|pad IH]; intros s.
  - split; [reflexivity|]. intros acc. cbn. f_equal. lia.
  - cbn [zfill]. destruct (IH (String "0"%char s)) as [Hlen Hparse].
    split; [rewrite Hlen; cbn; lia|].
    intros acc. rewrite Hparse. cbn. f_equal.
    rewrite Nat2N.inj_succ, N.pow_succ_r'. lia.
Qed.

Lemma append_cons (c : ascii) (a b : string) :
  String.append (String c a) b = String c (String.append a b).
Proof. reflexivity. Qed.

Lemma append_length (a b : string) :
  String.length (String.append a b)
  = (String.length a + String.length b)%nat.
Proof.
  induction a as [|c a IH]; [reflexivity|].
  rewrite append_cons. cbn [String.length Nat.add]. rewrite IH. reflexivity.
Qed.

Lemma append_digit (ds : string) (c : ascii) (acc : string) :
  String.append (String.append ds (String c "")) acc
  = String.append ds (String c acc).
Proof.
  induction ds as [|c' ds IH]; [reflexivity|].
  rewrite !append_cons, IH. reflexivity.
Qed.

Lemma append_empty (s : string) : String.append s "" = s.
Proof.
  induction s as [|c s IH]; [reflexivity|].
  rewrite append_cons, IH. reflexivity.
Qed.

Lemma div16_small (n : N) : (n / 16 = 0)%N <-> (n < 16)%N.
Proof.
  split; intros H.
  - destruct (N.lt_ge_cases n 16) as [|Hge]; [assumption|].
    pose proof (N.Div0.div_le_mono 16 n 16 Hge) as Hle.
    change (16 / 16)%N with 1%N in Hle. lia.
  - apply N.div_small, H.
Qed.

Lemma div16_bound (n b : N) : (n < 16 * b)%N -> (n / 16 < b)%N.
Proof. intros H. apply N.Div0.div_lt_upper_bound. exact H. Qed.

(** [hex_of] with enough fuel puts the digits of [n] in front of the
    accumulator. *)
Lemma hex_of_digits :
  forall fuel n acc,
    (n < 2 ^ N.of_nat fuel)%N -> (0 < fuel)%nat ->
    exists ds,
      hex_of fuel n acc = String.append ds acc
      /\ (forall a, parse_hex_from a ds
                    = (a * 16 ^ N.of_nat (String.length ds) + n)%N)
      /\ (1 <= String.length ds)%nat
      /\ (forall k, (n < 16 ^ N.of_nat k)%N -> (0 < k)%nat ->
                    (String.length ds <= k)%nat).
Proof.
  induction fuel as [|fuel IH]; intros n acc Hn Hfuel; [lia|].
  cbn [hex_of].
  assert (Hmod : (n mod 16 < 16)%N) by (apply N.mod_lt; lia).
  pose proof (N.div_mod n 16 ltac:(lia)) as Hdm.
  destruct (N.eqb_spec (n / 16) 0) as [Hq|Hq].
  - apply div16_small in Hq.
    exists (String (hex_digit (n mod 16)) "").
    rewrite N.mod_small by assumption.
    split; [reflexivity|]. split.
    { intros a. cbn [parse_hex_from String.length].
      rewrite hex_value_digit by assumption.
      change (16 ^ N.of_nat 1)%N with 16%N. lia. }
    split; [cbn; lia|].
    intros k _ Hk. cbn. lia.
  - assert (Hbig : (16 <= n)%N).
    { destruct (N.lt_ge_cases n 16) as [Hlt|]; [|assumption].
      apply div16_small in Hlt. contradiction. }
    rewrite Nat2N.inj_succ, N.pow_succ_r' in Hn.
    assert (Hfuel' : (0 < fuel)%nat).
    { destruct fuel; [|lia]. change (2 ^ N.of_nat 0)%N with 1%N in Hn. lia. }
    assert (Hn' : (n / 16 < 2 ^ N.of_nat fuel)%N)
      by (apply div16_bound; lia).
    destruct (IH (n / 16)%N (String (hex_digit (n mod 16)) acc) Hn' Hfuel')
      as (ds & Heq & Hparse & Hlen & Hmin).
    exists (String.append ds (String (hex_digit (n mod 16)) "")).
    rewrite append_length. cbn [String.length].
    replace (String.length ds + 1)%nat with (S (String.length ds)) by lia.
    rewrite Nat2N.inj_succ, N.pow_succ_r'.
    split; [rewrite Heq, append_digit; reflexivity|]. split.
    { intros a. rewrite parse_hex_from_append, Hparse.
      cbn [parse_hex_from]. rewrite hex_value_digit by assumption. lia. }
    split; [lia|].
    intros k Hk Hk0. destruct k as [|k]; [lia|].
    rewrite Nat2N.inj_succ, N.pow_succ_r' in Hk.
    assert (Hk1 : (0 < k)%nat).
    { destruct k; [|lia]. change (16 ^ N.of_nat 0)%N with 1%N in Hk. lia. }
    assert (Hk' : (n / 16 < 16 ^ N.of_nat k)%N)
      by (apply div16_bound; lia).
    specialize (Hmin k Hk' Hk1). lia.
Qed.

Lemma pos_size_nat_bound (p : positive) :
  (N.pos p < 2 ^ N.of_nat (Pos.size_nat p))%N.
Proof.
  induction p as [p IH|p IH|]; cbn [Pos.size_nat];
    rewrite Nat2N.inj_succ, N.pow_succ_r'; lia.
Qed.

Lemma size_nat_bound (n : N) : (n < 2 ^ N.of_nat (S (N.size_nat n)))%N.
Proof.
  destruct n as [|p]; [reflexivity|].
  cbn [N.size_nat]. rewrite Nat2N.inj_succ, N.pow_succ_r'.
  pose proof (pos_size_nat_bound p). lia.
Qed.

(** X18.  The hexadecimal text that [build_layer_toggle] puts after "#"
    reads back as the fill colour and has at least six digits; for a
    24-bit colour it has exactly six, so the default colour is a
    "#rrggbb" colour. *)
Theorem format_06x_reads_back (n : N) :
  parse_hex (format_06x n) = n
  /\ (6 <= String.length (format_06x n))%nat
  /\ ((n < 2 ^ 24)%N -> String.length (format_06x n) = 6%nat).
Proof.
  unfold format_06x, parse_hex.
  destruct (hex_of_digits (S (N.size_nat n)) n "" (size_nat_bound n)
              ltac:(lia))
    as (ds & Heq & Hparse & Hlen & Hmin).
  rewrite Heq, append_empty.
  destruct (zfill_zeros (6 - String.length ds) ds) as [Hzlen Hzparse].
  split; [rewrite Hzparse, Hparse; cbn; lia|].
  split; [rewrite Hzlen; lia|].
  intros H24. rewrite Hzlen.
  specialize (Hmin 6%nat). change (16 ^ N.of_nat 6)%N with (2 ^ 24)%N in Hmin.
  specialize (Hmin H24 ltac:(lia)). lia.
Qed.

(** ** More on the walk and on construction *)

Section MoreWalk.
Context {E : Engine}.

(** X20.  For a group with a single child the loop moves the iterator on
    before it builds: the one entry the group's control is made of is
    the one a [next] past the first child, and the group is dropped when
    that entry yields no control. *)
Theorem single_child_group
        (fuel : nat) (w : LayoutWidget)
        (prop_iter : LayerPropertiesIterator) :
  has_children (current prop_iter) = true ->
  num_siblings (down_first_child prop_iter) = 1%nat ->
  let built :=
    build_layer_toggle fuel w (next (down_first_child prop_iter)) in
  let props := current prop_iter in
  let color := String.append "#" (format_06x (eff_fill_color props)) in
  let checkbox :=
    mkButton (if visible props then color else "transparent") color
             props (name props) in
  build_layer_toggle (S fuel) w prop_iter
  = match built with
    | Done (Some child, it) =>
        Done (Some (mkHBox checkbox (Accordion [child] (name props))), it)
    | Done (None, it) => Done (None, it)
    | Raised e => Raised e
    | OutOfFuel => OutOfFuel
    end.
Proof.
  intros Hkids Hone. cbn zeta. cbn [build_layer_toggle].
  rewrite Hkids, Hone. cbn [for_children].
  destruct (build_layer_toggle fuel w (next (down_first_child prop_iter)))
    as [[[child|] it]| |]; reflexivity.
Qed.

(** X21.  A construction that returns has loaded a layer properties
    file exactly when its argument, read as a path, names a regular
    file, and then it has loaded the path as written back from that
    reading. *)
Theorem init_loads_iff_regular_file
        (fuel : nat) (fs : FileSystem) (cell : KCell)
        (p : string) (hide with_layer_selector : bool) (w : LayoutWidget) :
  __init__ fuel fs cell (Some p) hide with_layer_selector = Done w ->
  (forall q, In (Call.load_layer_props q) (calls (layout_view w)) ->
             q = str (Path p) /\ fs (str (Path p)) = st_mode RegularFile)
  /\ (fs (str (Path p)) = st_mode RegularFile ->
      In (Call.load_layer_props (str (Path p))) (calls (layout_view w))).
Proof.
  rewrite init_steps. cbn [option_map]. rewrite loaded_view_some.
  destruct (fs (str (Path p))) as [k| |errno] eqn:Hstat; cbn [bind];
    try discriminate.
  - destruct (decide (k = RegularFile)) as [->|Hk].
    + rewrite bool_decide_eq_true_2 by reflexivity.
      intros Hw. apply construct_on_calls in Hw. rewrite Hw.
      unfold construction_calls. cbn. split.
      * intros q Hin. intuition (try discriminate).
        match goal with H : Call.load_layer_props _ = _ |- _ =>
          injection H as -> end. reflexivity.
      * auto.
    + rewrite bool_decide_eq_false_2 by exact Hk.
      intros Hw. apply construct_on_calls in Hw. rewrite Hw.
      unfold construction_calls. cbn. split.
      * intros q Hin. intuition discriminate.
      * intros [= Hyes]. destruct (Hk Hyes).
  - intros Hw. apply construct_on_calls in Hw. rewrite Hw.
    unfold construction_calls. cbn. split.
    + intros q Hin. intuition discriminate.
    + discriminate.
Qed.

End MoreWalk.

(** ** The theorems at work on the small engine *)

#[local] Existing Instance klayout_ButtonState.
#[local] Existing Instance Toy.engine.

Lemma toy_timer_keeps_layers (s : Session Toy.state) :
  layers (Toy.react Call.timer s) = layers s.
Proof. cbn. destruct (Toy.animated (core s)); reflexivity. Qed.


Lemma twin_button_built :
  build_layer_toggle 1 (Toy.a_widget [Toy.metal_hidden; Toy.metal_shown] false)
                     [Toy.metal_shown]
  = Done (Some (mkHBox Toy.twin_button (Label "M1")), [Toy.metal_shown]).
Proof. reflexivity. Qed.

(** C2, counterexample.  The table holds two entries on the same source
    that differ in visibility only.  The first click on the button of
    the shown one hides it; its stored properties then equal the other
    entry, which comes first, so the second click shows that one
    instead: after two clicks the button's own layer is still hidden. *)
Lemma two_toggles_leave_layer_hidden :
  let w := Toy.a_widget [Toy.metal_hidden; Toy.metal_shown] false in
  visible <$> layers (session (layout_view
                                 (toggle_n 2 (Toy.twin_button, w)).2))
          !! 1%nat
  <> visible <$> layers (session (layout_view w)) !! 1%nat.
Proof. vm_compute. discriminate. Qed.

Lemma even_toggles_restore_visibility_witness :
  let w := Toy.a_widget [Toy.metal_hidden; Toy.via] false in
  let button := mkButton "#00ff00" "#00ff00" Toy.via "2/0" in
  (forall s : Session Toy.state, layers (step Call.timer s) = layers s)
  /\ sole_match (layer_props button) (layers (session (layout_view w)))
  /\ Nat.Even 2
  /\ visible <$> layers (session (layout_view (toggle_n 2 (button, w)).2))
     = visible <$> layers (session (layout_view w)).
Proof.
  cbn zeta.
  assert (Hsole : sole_match Toy.via [Toy.metal_hidden; Toy.via]).
  { intros [|[|i]] [|[|j]] p q Hi Hj Hp Hq; cbn in Hi, Hj;
      try reflexivity; try discriminate;
      try (injection Hi as <-; discriminate Hp);
      try (injection Hj as <-; discriminate Hq). }
  assert (Heven : Nat.Even 2) by (exists 1%nat; reflexivity).
  split; [exact toy_timer_keeps_layers|].
  split; [exact Hsole|]. split; [exact Heven|].
  exact (even_toggles_restore_visibility 2
           (mkButton "#00ff00" "#00ff00" Toy.via "2/0")
           (Toy.a_widget [Toy.metal_hidden; Toy.via] false)
           toy_timer_keeps_layers Hsole Heven).
Defined.

(** C3, counterexample.  With an animated layer every timer tick moves
    the animation on, and [refresh] ticks the timer before and after the
    screenshot: the second frame is two phases later than the first. *)
Lemma refresh_twice_animated :
  let w := Toy.a_widget [Toy.via] true in
  value (image (refresh (refresh w))) <> value (image (refresh w)).
Proof. vm_compute. discriminate. Qed.

Lemma refresh_twice_settled_witness :
  let w := Toy.a_widget [Toy.via] false in
  (step Call.timer (step Call.timer (session (layout_view w)))
   = step Call.timer (session (layout_view w)))
  /\ value (image (refresh (refresh w))) = value (image (refresh w))
  /\ image (refresh (refresh w)) = image (refresh w)
  /\ session (layout_view (refresh (refresh w)))
     = session (layout_view (refresh w)).
Proof.
  split; [reflexivity|].
  apply (refresh_twice_settled (Toy.a_widget [Toy.via] false)).
  reflexivity.
Defined.

Lemma toy_finite_walk : @finite_walk Toy.engine (@length LayerProperties).
Proof.
  split; [|split].
  - intros [|p it]; cbn; lia.
  - intros it. cbn. lia.
  - intros [|p it]; [split; reflexivity|discriminate].
Qed.

Lemma toy_housekeeping : Forall (@keeps_active_cell Toy.engine) housekeeping.
Proof.
  assert (Htimer : forall s : Session Toy.state,
             active_cell (Toy.react Call.timer s) = active_cell s).
  { intros s. cbn. destruct (Toy.animated (core s)); reflexivity. }
  unfold housekeeping. repeat constructor. exact Htimer.
Qed.

(** C4, counterexample.  A name of 300 letters is on no disk, and the
    file system refuses to look for it: the name is too long
    (ENAMETOOLONG, 36).  That is not one of the errors [Path.exists()]
    takes for an answer, so construction raises it. *)
Lemma init_raises_on_long_name :
  let cell := mkKCell Toy.top_cell Toy.lib in
  String.length Toy.long_name = 300%nat
  /\ (forall k, Toy.empty_disk (str (Path Toy.long_name)) <> st_mode k)
  /\ __init__ 5 Toy.empty_disk cell (Some Toy.long_name) true true
     = Raised (OSError 36)
  /\ exists w, __init__ 5 Toy.empty_disk cell None true true = Done w.
Proof.
  cbn zeta. split; [reflexivity|]. split; [|split].
  - intros k. vm_compute. discriminate.
  - vm_compute. reflexivity.
  - eexists. vm_compute. reflexivity.
Qed.

Lemma init_missing_layer_properties_witness :
  let fs := Toy.disk_with "tech" Directory in
  let cell := mkKCell Toy.top_cell Toy.lib in
  not_regular fs (Path "./tech/")
  /\ finite_walk (@length LayerProperties)
  /\ Forall keeps_active_cell housekeeping
  /\ (forall fuel,
         __init__ fuel fs cell (Some "./tech/") true true
         = outcome_map (set_layer_properties (Some (Path "./tech/")))
             (__init__ fuel fs cell None true true))
  /\ exists fuel0,
      forall fuel,
        (fuel0 <= fuel)%nat ->
        exists w,
          __init__ fuel fs cell (Some "./tech/") true true = Done w
          /\ calls (layout_view w) = construction_calls cell
          /\ (forall q, ~ In (Call.load_layer_props q)
                             (calls (layout_view w)))
          /\ layer_properties w = Some (Path "./tech/").
Proof.
  cbn zeta.
  assert (Hpath : not_regular (Toy.disk_with "tech" Directory)
                              (Path "./tech/")).
  { right. exists Directory. split; [reflexivity|discriminate]. }
  split; [exact Hpath|].
  split; [exact toy_finite_walk|]. split; [exact toy_housekeeping|].
  exact (init_missing_layer_properties
           (@length LayerProperties) (Toy.disk_with "tech" Directory)
           (mkKCell Toy.top_cell Toy.lib) "./tech/" true true
           Hpath toy_finite_walk toy_housekeeping).
Defined.




Lemma on_mouse_other_kind_witness :
  let ev := Toy.contextmenu in
  let w := Toy.a_widget [Toy.via] false in
  let s := session (layout_view w) in
  let sent := [Call.timer; Call.timer; Call.get_screenshot_pixels;
               Call.timer; Call.timer] in
  event ev <> "mousedown" /\ event ev <> "mouseup" /\ event ev <> "mousemove"
  /\ calls (layout_view (on_mouse ev w)) = calls (layout_view w) ++ sent
  /\ forallb (fun c => negb (injects_mouse c)) sent = true
  /\ session (layout_view (on_mouse ev w))
     = step Call.timer (step Call.timer (step Call.timer (step Call.timer s)))
  /\ value (image (on_mouse ev w))
     = to_png_data (screenshot (step Call.timer (step Call.timer s))).
Proof.
  cbn zeta.
  split; [discriminate|]. split; [discriminate|]. split; [discriminate|].
  apply (on_mouse_other_kind Toy.contextmenu (Toy.a_widget [Toy.via] false));
    discriminate.
Defined.

(** C7, at the failing input.  The widget shows a fresh frame; the user
    picks the "ruler" mode.  The registered callback switches the
    session's mode and leaves the image as it was, so the image no
    longer is the screenshot of the session; the callback [__init__]
    defines but never registers would have refreshed it. *)
Theorem mode_switch_leaves_stale_frame :
  let w := refresh (Toy.a_widget [Toy.via] false) in
  let mode := mkChange (mkToggleButtons (mode_names (session (layout_view w))))
                       "ruler" in
  let w' := build_modes_switch_mode mode w in
  value (image w) = to_png_data (screenshot (session (layout_view w)))
  /\ image w' = image w
  /\ calls (layout_view w')
     = calls (layout_view w) ++ [Call.switch_mode "ruler"]
  /\ value (image w') <> to_png_data (screenshot (session (layout_view w')))
  /\ value (image (init_switch_mode "ruler" w))
     = to_png_data
         (screenshot (session (layout_view (init_switch_mode "ruler" w)))).
Proof.
  cbn zeta. repeat split.
  vm_compute. discriminate.
Qed.

(** ** The further properties at work *)

Lemma modifier_flags_read_back_witness :
  separate masks
  /\ let r := _get_modifier_buttons Toy.click in
     (Z.land r ShiftKey =? ShiftKey) = shiftKey Toy.click
     /\ (Z.land r AltKey =? AltKey) = altKey Toy.click
     /\ (Z.land r ControlKey =? ControlKey) = ctrlKey Toy.click
     /\ (Z.land r LeftButton =? LeftButton) = Z.testbit (buttons Toy.click) 0
     /\ (Z.land r RightButton =? RightButton)
        = Z.testbit (buttons Toy.click) 1
     /\ (Z.land r MidButton =? MidButton) = Z.testbit (buttons Toy.click) 2.
Proof.
  assert (Hsep : separate (@masks klayout_ButtonState)).
  { split.
    - cbn. intros a Ha. intuition (subst; discriminate).
    - intros [|[|[|[|[|[|i]]]]]] [|[|[|[|[|[|j]]]]]] a b Hi Hj Hij;
        cbn in Hi, Hj; try discriminate; try congruence;
        injection Hi as <-; injection Hj as <-; reflexivity. }
  split; [exact Hsep|].
  exact (modifier_flags_read_back Toy.click Hsep).
Defined.

Lemma on_scroll_truncates_witness :
  let w := Toy.a_widget [Toy.via] false in
  let wheel d :=
    Call.send_wheel_event d false
      (mkDPoint (relativeX Toy.nudge) (relativeY Toy.nudge))
      (_get_modifier_buttons Toy.nudge) in
  let sent d :=
    [Call.timer; wheel d; Call.timer; Call.get_screenshot_pixels;
     Call.timer] in
  (-1 < deltaY Toy.nudge)%Q /\ (deltaY Toy.nudge < 1)%Q
  /\ calls (layout_view (on_scroll Toy.nudge w))
     = calls (layout_view w) ++ sent 0.
Proof.
  cbn zeta.
  assert (Hlo : (-1 < deltaY Toy.nudge)%Q) by reflexivity.
  assert (Hhi : (deltaY Toy.nudge < 1)%Q) by reflexivity.
  split; [exact Hlo|]. split; [exact Hhi|].
  exact (proj2 (on_scroll_truncates Toy.nudge
                  (Toy.a_widget [Toy.via] false)) Hlo Hhi).
Defined.

Lemma on_mouse_forwards_kind_witness :
  let w := Toy.a_widget [Toy.via] false in
  event Toy.click = "mousedown"
  /\ calls (layout_view (on_mouse Toy.click w))
     = calls (layout_view w)
       ++ [Call.timer;
           Call.send_mouse_press_event
             (mkDPoint (relativeX Toy.click) (relativeY Toy.click))
             (_get_modifier_buttons Toy.click);
           Call.timer; Call.get_screenshot_pixels; Call.timer; Call.timer].
Proof.
  cbn zeta. split; [reflexivity|].
  exact (proj1 (on_mouse_forwards_kind Toy.click
                  (Toy.a_widget [Toy.via] false)) eq_refl).
Defined.

Lemma refreshing_handlers_show_current_session_witness :
  let w := Toy.calm_widget [Toy.via] in
  (forall s : Session (@Core Toy.calm),
      @step Toy.calm Call.timer (@step Toy.calm Call.timer s)
      = @step Toy.calm Call.timer s)
  /\ value (image (on_scroll Toy.wheel w))
     = to_png_data
         (screenshot (session (layout_view (on_scroll Toy.wheel w)))).
Proof.
  cbn zeta.
  assert (Hsettled : forall s : Session (@Core Toy.calm),
             @step Toy.calm Call.timer (@step Toy.calm Call.timer s)
             = @step Toy.calm Call.timer s) by reflexivity.
  split; [exact Hsettled|].
  exact (proj1 (proj2 (@refreshing_handlers_show_current_session
                         klayout_ButtonState Toy.calm Toy.wheel
                         Toy.twin_button "ruler"
                         (Toy.calm_widget [Toy.via]) Hsettled))).
Defined.

Lemma via_sole_match : sole_match Toy.via [Toy.metal_hidden; Toy.via].
Proof.
  intros [|[|i]] [|[|j]] p q Hi Hj Hp Hq; cbn in Hi, Hj;
    try reflexivity; try discriminate;
    try (injection Hi as <-; discriminate Hp);
    try (injection Hj as <-; discriminate Hq).
Qed.

Lemma toggle_n_visibility_witness :
  let w := Toy.a_widget [Toy.metal_hidden; Toy.via] false in
  let button := mkButton "#00ff00" "#00ff00" Toy.via "2/0" in
  (forall s : Session Toy.state, layers (step Call.timer s) = layers s)
  /\ sole_match (layer_props button) (layers (session (layout_view w)))
  /\ layers (session (layout_view w)) !! 1%nat = Some (layer_props button)
  /\ visible <$> layers (session (layout_view (toggle_n 3 (button, w)).2))
     = <[1%nat := xorb (visible (layer_props button)) (Nat.odd 3)]>
         (visible <$> layers (session (layout_view w))).
Proof.
  cbn zeta.
  split; [exact toy_timer_keeps_layers|].
  split; [exact via_sole_match|]. split; [reflexivity|].
  exact (proj1 (toggle_n_visibility 3 1
                  (mkButton "#00ff00" "#00ff00" Toy.via "2/0")
                  (Toy.a_widget [Toy.metal_hidden; Toy.via] false)
                  toy_timer_keeps_layers via_sole_match eq_refl)).
Defined.

Lemma button_toggle_keeps_sync_witness :
  let w := Toy.a_widget [Toy.metal_hidden; Toy.metal_shown] false in
  (forall s : Session Toy.state, layers (step Call.timer s) = layers s)
  /\ default_color Toy.twin_button <> "transparent"
  /\ in_sync Toy.twin_button
  /\ In (layer_props Toy.twin_button) (layers (session (layout_view w)))
  /\ in_sync (button_toggle Toy.twin_button w).1.
Proof.
  cbn zeta.
  assert (Hdefault : default_color Toy.twin_button <> "transparent")
    by discriminate.
  assert (Hsync : in_sync Toy.twin_button) by reflexivity.
  assert (Hin : In (layer_props Toy.twin_button)
                   (layers (session (layout_view
                      (Toy.a_widget [Toy.metal_hidden; Toy.metal_shown]
                                    false)))))
    by (cbn; tauto).
  split; [exact toy_timer_keeps_layers|].
  split; [exact Hdefault|]. split; [exact Hsync|]. split; [exact Hin|].
  exact (proj1 (button_toggle_keeps_sync Toy.twin_button
                  (Toy.a_widget [Toy.metal_hidden; Toy.metal_shown] false)
                  toy_timer_keeps_layers Hdefault Hsync Hin)).
Defined.

Lemma button_toggle_unmatched_witness :
  let w := Toy.a_widget [Toy.via] false in
  ~ In (layer_props Toy.twin_button) (layers (session (layout_view w)))
  /\ layer_props (button_toggle Toy.twin_button w).1
     = layer_props Toy.twin_button
  /\ ~ in_sync (button_toggle Toy.twin_button w).1.
Proof.
  cbn zeta.
  assert (Hnot : ~ In (layer_props Toy.twin_button)
                      (layers (session (layout_view
                                          (Toy.a_widget [Toy.via] false))))).
  { cbn. intros [H|[]]. discriminate H. }
  split; [exact Hnot|].
  pose proof (button_toggle_unmatched Toy.twin_button
                (Toy.a_widget [Toy.via] false) Hnot) as (Hp & _ & _ & Hs).
  split; [exact Hp|].
  apply Hs; [discriminate|reflexivity].
Defined.

Lemma build_layer_toggle_control_witness :
  let w := Toy.a_widget [Toy.via] false in
  let checkbox := mkButton "#00ff00" "#00ff00" Toy.via "2/0" in
  build_layer_toggle 1 w [Toy.via]
  = Done (Some (mkHBox checkbox (Label "2/0")), [Toy.via])
  /\ layer_props checkbox = Toy.via
  /\ in_sync checkbox.
Proof.
  cbn zeta.
  assert (Hbuild :
            build_layer_toggle 1 (Toy.a_widget [Toy.via] false)
              ([Toy.via] : @LayerPropertiesIterator Toy.engine)
            = Done (Some (mkHBox (mkButton "#00ff00" "#00ff00" Toy.via "2/0")
                                 (Label "2/0")),
                    ([Toy.via] : @LayerPropertiesIterator Toy.engine)))
    by reflexivity.
  split; [exact Hbuild|].
  pose proof (build_layer_toggle_control _ _ _ _ _ _ Hbuild)
    as (Hp & Hs & _).
  split; [exact Hp|exact Hs].
Defined.

Lemma built_tree_resolves_witness :
  let w := Toy.a_widget [Toy.via] false in
  exists tabs,
    build_selector 5 w 600 = Done tabs
    /\ tree_names (tree tabs) = ["top"; "child"]
    /\ exists c,
        cell (layout (session (layout_view w))) "child" = Some c
        /\ cell_name c = "child".
Proof.
  cbn zeta. eexists. split; [reflexivity|].
  pose proof (built_tree_resolves 5 (Toy.a_widget [Toy.via] false) 600 _
                eq_refl) as [Hnames Hfind].
  split; [exact Hnames|].
  apply Hfind. cbn. tauto.
Defined.

Lemma on_select_cell_done_witness :
  let w := Toy.a_widget [Toy.via] false in
  let w' := (on_select_cell 5 Toy.select_child w).1 in
  let shown := cell (layout (session (layout_view w))) "child" in
  let s := session (show_cell shown (layout_view w)) in
  on_select_cell 5 Toy.select_child w = (w', Done tt)
  /\ session (layout_view w') = step Call.timer (step Call.timer s)
  /\ value (image w') = to_png_data (screenshot (step Call.timer s)).
Proof.
  cbn zeta.
  assert (Hdone : on_select_cell 5 Toy.select_child
                    (Toy.a_widget [Toy.via] false)
                  = ((on_select_cell 5 Toy.select_child
                        (Toy.a_widget [Toy.via] false)).1, Done tt))
    by reflexivity.
  split; [exact Hdone|].
  destruct (on_select_cell_done 5 Toy.select_child _ _ Hdone)
    as (_ & _ & _ & _ & _ & Hsession & Himage & _).
  split; [exact Hsession|exact Himage].
Defined.

Lemma on_select_cell_raised_witness :
  let w := Toy.bare_widget in
  let w' := set_layout_view
              (show_cell (Some (mkCell "child"
                                       (fun _ => mkBox 1 1 (-1) (-1)) []))
                         (layout_view w)) w in
  on_select_cell 5 Toy.select_child w
  = (w', Raised (AttributeError "children"))
  /\ image w' = image w.
Proof.
  cbn zeta.
  assert (Hraised :
            on_select_cell 5 Toy.select_child Toy.bare_widget
            = (set_layout_view
                 (show_cell
                    (Some (mkCell "child" (fun _ => mkBox 1 1 (-1) (-1)) []))
                    (layout_view Toy.bare_widget)) Toy.bare_widget,
               Raised (AttributeError "children")))
    by reflexivity.
  split; [exact Hraised|].
  exact (proj1 (on_select_cell_raised 5 Toy.select_child _ _ _ Hraised)).
Defined.

Lemma toy_keeps_active_cell :
  Forall (@keeps_active_cell Toy.engine)
         [Call.max_hier; Call.resize 800 600; Call.add_missing_layers;
          Call.zoom_fit].
Proof. repeat constructor. Qed.

Lemma show_cell_activates_witness :
  let w := Toy.a_widget [Toy.via] false in
  let child := mkCell "child" (fun _ => mkBox 1 1 (-1) (-1)) [] in
  Forall keeps_active_cell
         [Call.max_hier; Call.resize 800 600; Call.add_missing_layers;
          Call.zoom_fit]
  /\ widget w = Some (mkAppLayout (mkToggleButtons []) (Some (mkTab [] [])))
  /\ right_sidebar (mkAppLayout (mkToggleButtons []) (Some (mkTab [] [])))
     = Some (mkTab [] [])
  /\ cell (layout (session (layout_view w)))
          (node_name (owner Toy.select_child)) = Some child
  /\ active_cell (session (show_cell (Some child) (layout_view w)))
     = Some child
  /\ forall e, (on_select_cell 5 Toy.select_child w).2 <> Raised e.
Proof.
  cbn zeta. split; [exact toy_keeps_active_cell|].
  split; [reflexivity|]. split; [reflexivity|]. split; [reflexivity|].
  destruct (show_cell_activates
              (mkCell "child" (fun _ => mkBox 1 1 (-1) (-1)) [])
              5 Toy.select_child
              (Toy.a_widget [Toy.via] false) _ _
              toy_keeps_active_cell eq_refl eq_refl eq_refl)
    as [Hactive Hnever].
  split; [apply Hactive|exact Hnever].
Defined.

Lemma init_loads_regular_file_witness :
  let fs := Toy.disk_with "tech.lyp" RegularFile in
  let cell := mkKCell Toy.top_cell Toy.lib in
  fs (str (Path "./tech.lyp")) = st_mode RegularFile
  /\ exists w,
      __init__ 5 fs cell (Some "./tech.lyp") true true = Done w
      /\ calls (layout_view w)
         = Call.show_layout (klib cell) false
           :: Call.load_layer_props "tech.lyp"
           :: List.tl (construction_calls cell).
Proof.
  cbn zeta.
  assert (Hfile : Toy.disk_with "tech.lyp" RegularFile
                    (str (Path "./tech.lyp")) = st_mode RegularFile)
    by reflexivity.
  split; [exact Hfile|].
  destruct (__init__ 5 (Toy.disk_with "tech.lyp" RegularFile)
              (mkKCell Toy.top_cell Toy.lib) (Some "./tech.lyp") true true)
    as [w| |] eqn:Hw.
  - exists w. split; [reflexivity|].
    exact (init_loads_regular_file 5 _ _ _ _ _ w Hfile Hw).
  - exfalso. vm_compute in Hw. discriminate Hw.
  - exfalso. vm_compute in Hw. discriminate Hw.
Defined.

Lemma init_result_witness :
  let cell := mkKCell Toy.top_cell Toy.lib in
  exists w,
    __init__ 5 Toy.empty_disk cell (Some "tech/../tech.lyp") false true
    = Done w
    /\ hide_unused_layers w = false
    /\ layer_properties w = Some (mkPath "" ["tech"; ".."; "tech.lyp"])
    /\ format (image w) = "png".
Proof.
  cbn zeta. eexists. split; [reflexivity|].
  pose proof (init_result 5 Toy.empty_disk (mkKCell Toy.top_cell Toy.lib)
                (Some "tech/../tech.lyp") false true
                _ eq_refl) as (Hhide & Hpath & Hformat & _).
  split; [exact Hhide|]. split; [exact Hpath|exact Hformat].
Defined.

Lemma load_layout_effects_witness :
  let w := Toy.a_widget [Toy.via] false in
  "tech.lyp" <> ""
  /\ calls (layout_view (load_layout "chip.gds" (Some "tech.lyp") w))
     = calls (layout_view w)
       ++ [Call.load_layout "chip.gds"; Call.max_hier;
           Call.load_layer_props "tech.lyp"].
Proof.
  cbn zeta.
  assert (Hp : "tech.lyp" <> "") by discriminate.
  split; [exact Hp|].
  exact (proj2 (proj2 (proj2 (proj2
           (load_layout_effects "chip.gds" (Some "tech.lyp")
              (Toy.a_widget [Toy.via] false))))) "tech.lyp" Hp).
Defined.

Lemma single_child_group_witness :
  let w := Toy.a_widget [Toy.group] false in
  let prop_iter : LayerPropertiesIterator := [Toy.group] in
  has_children (current prop_iter) = true
  /\ num_siblings (down_first_child prop_iter) = 1%nat
  /\ exists child it,
      build_layer_toggle 1 w (next (down_first_child prop_iter))
      = Done (Some child, it)
      /\ build_layer_toggle 2 w prop_iter
         = Done (Some (mkHBox (mkButton "#000000" "#000000" Toy.group "metals")
                              (Accordion [child] "metals")), it).
Proof.
  cbn zeta. split; [reflexivity|]. split; [reflexivity|].
  eexists. eexists. split; [reflexivity|].
  exact (single_child_group 1 (Toy.a_widget [Toy.group] false)
           ([Toy.group] : @LayerPropertiesIterator Toy.engine)
           eq_refl eq_refl).
Defined.

Lemma init_loads_iff_regular_file_witness :
  let fs := Toy.disk_with "tech.lyp" RegularFile in
  let cell := mkKCell Toy.top_cell Toy.lib in
  exists w,
    __init__ 5 fs cell (Some "tech.lyp/") true false = Done w
    /\ fs (str (Path "tech.lyp/")) = st_mode RegularFile
    /\ In (Call.load_layer_props "tech.lyp") (calls (layout_view w)).
Proof.
  cbn zeta.
  assert (Hfile : Toy.disk_with "tech.lyp" RegularFile
                    (str (Path "tech.lyp/")) = st_mode RegularFile)
    by reflexivity.
  destruct (__init__ 5 (Toy.disk_with "tech.lyp" RegularFile)
              (mkKCell Toy.top_cell Toy.lib) (Some "tech.lyp/") true false)
    as [w| |] eqn:Hw.
  - exists w. split; [reflexivity|]. split; [exact Hfile|].
    exact (proj2 (init_loads_iff_regular_file 5 _ _ _ _ _ w Hw) Hfile).
  - exfalso. vm_compute in Hw. discriminate Hw.
  - exfalso. vm_compute in Hw. discriminate Hw.
Defined.

Lemma format_06x_reads_back_witness :
  (255 < 2 ^ 24)%N
  /\ format_06x 255 = "0000ff"
  /\ parse_hex (format_06x 255) = 255%N
  /\ String.length (format_06x 255) = 6%nat.
Proof.
  assert (H24 : (255 < 2 ^ 24)%N) by reflexivity.
  split; [exact H24|]. split; [reflexivity|].
  destruct (format_06x_reads_back 255) as (Hparse & _ & Hlen).
  split; [exact Hparse|exact (Hlen H24)].
Defined.
